(** * OpenAssetIO host-side [Manager] facade

    A shallow embedding of [src/openassetio-core/src/hostApi/Manager.cpp]
    and the properties of its call-shape translation layer, of the
    capability gate run by [initialize] and of the prefix fast path of
    [isEntityReferenceString].

    Conventions of the embedding.
    - [std::size_t] indices and sizes are [nat]; the code only compares
      them and uses them as vector indices.
    - [Str] is [string]; [std::optional] and nullable shared pointers are
      [option]; [std::vector] is [list], indexed with stdpp's [!!] and
      [<[ _ := _ ]>]; [std::unordered_map] is [gmap].
    - Code that mutates the facade, the plugin or a closure's captured
      variables is written in explicit state-passing style; a call ends in
      one of three ways, see [Res]. *)

From Stdlib Require Import String Ascii List Arith Lia.
From stdpp Require Import base option list gmap strings pretty.



(** ** Basic types *)

Definition Str := string.
Definition Identifier := Str.

(** [InfoDictionary] maps a string key to a [Bool], [Int], [Float] or [Str]
    value. Floating point payloads are carried as their bit pattern: the
    facade never computes with them. *)
Inductive InfoDictionaryValue :=
| VBool (b : bool)
| VInt (i : Z)
| VFloat (bits : Z)
| VStr (s : Str).

Abbreviation InfoDictionary := (gmap Str InfoDictionaryValue).
Abbreviation StrMap := (gmap Str Str).

(** [EntityReference] wraps a string. *)
Record EntityReference := mkEntityReference { toString : Str }.
Definition EntityReferences := list EntityReference.

(** Declarations that [Manager.cpp] includes but that are not part of this
    source tree. They are parameters of the development: the facade only
    ever passes values of these types through, except where noted. *)
Class Externals := {
  (** [ManagerInterface::Capability] and the four constants the facade
      names. *)
  Capability : Type;
  kEntityReferenceIdentification : Capability;
  kManagementPolicyQueries : Capability;
  kEntityTraitIntrospection : Capability;
  kStatefulContexts : Capability;
  (** [ManagerInterface::kCapabilityNames], indexed by the enum value. *)
  kCapabilityNames : Capability → Str;
  (** [constants::kInfoKey_EntityReferencesMatchPrefix]. *)
  kInfoKey_EntityReferencesMatchPrefix : Str;
  (** [trait::TraitsData] with its default constructor; [trait::TraitSet]. *)
  TraitsData : Type;
  TraitsData_make : TraitsData;
  TraitSet : Type;
  (** [managerApi::ManagerStateBase], the opaque per-context state. *)
  ManagerStateBase : Type;
  (** [managerApi::EntityReferencePagerInterface]. *)
  EntityReferencePagerInterface : Type;
  (** [errors::BatchElementError] and its value-initialised instance, which
      is what a default-constructed
      [std::variant<BatchElementError, T>] holds. *)
  BatchElementError : Type;
  BatchElementError_default : BatchElementError;
  (** The access-mode enumerations and the casts to
      [internal::access::Access]. *)
  Access : Type;
  PolicyAccess : Type;
  EntityTraitsAccess : Type;
  DefaultEntityAccess : Type;
  RelationsAccess : Type;
  ResolveAccess : Type;
  PublishingAccess : Type;
  resolveAccess_cast : ResolveAccess → Access;
  publishingAccess_cast : PublishingAccess → Access;
  (** [errors::createBatchElementExceptionMessage] from
      [errors/exceptionMessages.hpp]. *)
  createBatchElementExceptionMessage :
    BatchElementError → nat → EntityReference → Access → Str;
}.

Section Types.
Context `{Externals}.

(** Shared pointers that may be null. *)
Definition TraitsDataPtr := option TraitsData.
Definition TraitsDatas := list TraitsDataPtr.
Definition TraitSets := list TraitSet.
Definition ManagerStateBasePtr := option ManagerStateBase.

(** Exceptions that can leave a call of the facade. [ForeignException]
    stands for any other exception type a plugin may raise. *)
Inductive Exception :=
| ConfigurationException (what : Str)
| InputValidationException (what : Str)
| BatchElementException (index : nat) (error : BatchElementError) (what : Str)
| ForeignException (what : Str).

(** How a call ends: it returns a value, it throws, or it runs into
    behaviour the language leaves undefined (an out-of-range
    [operator[]] on a vector), after which nothing is known. *)
Inductive Res (A : Type) :=
| Ret (a : A)
| Throw (e : Exception)
| Undefined.

(** [std::variant<errors::BatchElementError, T>]. *)
Inductive Variant (T : Type) :=
| VError (error : BatchElementError)
| VValue (value : T).

(** The logger of the host session, as the list of messages written. *)
Inductive Severity := kDebugApi | kWarning.
Definition LoggerInterface := list (Severity * Str).
Record HostSession := mkHostSession { logger : LoggerInterface }.

Definition debugApi (msg : Str) (l : LoggerInterface) : LoggerInterface :=
  l ++ [(kDebugApi, msg)].
Definition warning (msg : Str) (l : LoggerInterface) : LoggerInterface :=
  l ++ [(kWarning, msg)].

(** Modelled from the spec: [Context] and [Context::make] are declared in
    [Context.hpp], outside this source tree. A context holds a locale and
    an optional manager state; a fresh context has no manager state. *)
Record Context := mkContext {
  locale : TraitsDataPtr;
  managerState : ManagerStateBasePtr;
}.
Definition Context_make (locale : TraitsDataPtr) : Context :=
  {| locale := locale; managerState := None |}.

(** [hostApi::EntityReferencePager::make]: the host-facing pager pairs the
    plugin's pager with the host session. *)
Record EntityReferencePager := mkEntityReferencePager {
  pagerInterface : EntityReferencePagerInterface;
  pagerSession : HostSession;
}.
End Types.

Arguments Ret {_ _} a.
Arguments Throw {_ _} e.
Arguments Undefined {_ _}.
Arguments VError {_ _} error.
Arguments VValue {_ _} value.

(** ** Calls that change state and may throw *)

(** A computation over a state [S]: it ends as [Res] describes and leaves a
    state behind. *)
Definition M `{Externals} (S A : Type) : Type := S → Res A * S.

Definition ret `{Externals} {S A} (a : A) : M S A := λ s, (Ret a, s).
Definition throw `{Externals} {S A} (e : Exception) : M S A := λ s, (Throw e, s).
Definition bind `{Externals} {S A B} (c : M S A) (k : A → M S B) : M S B :=
  λ s, match c s with
       | (Ret a, s') => k a s'
       | (Throw e, s') => (Throw e, s')
       | (Undefined, s') => (Undefined, s')
       end.

#[global] Instance M_ret `{Externals} {S} : MRet (M S) := λ A, ret.
#[global] Instance M_bind `{Externals} {S} : MBind (M S) := λ A B k c, bind c k.

(** ** The plugin behind the facade *)

Module ManagerInterface.
Section Interface.
Context `{Externals}.

(** What a plugin does during one batch call, as far as the facade can
    see: the callbacks it invokes, in the order it invokes them, each
    with an index and either an error or a success value, and how the
    call itself ends once every callback has returned. An exception
    thrown by a callback leaves the plugin's method at once; the
    callbacks listed after it are then never invoked. *)
Record BatchRun (V : Type) := mkBatchRun {
  callbacks : list (nat * (BatchElementError + V));
  completion : Res unit;
}.

(** The virtual methods of [managerApi::ManagerInterface] that the facade
    calls, over the plugin's private state [PS]. The two [const] accessors
    read the state; every other method may change it and may throw. A
    method is handed the host session to read: what a plugin writes to the
    session's logger is not part of the model, in which the log of the
    session holds the facade's own messages only. *)
Record t (PS : Type) := mk {
  identifier : PS → Identifier;
  displayName : PS → Str;
  hasCapability : Capability → PS → Res bool * PS;
  info : PS → Res InfoDictionary * PS;
  updateTerminology : StrMap → HostSession → PS → Res StrMap * PS;
  settings : HostSession → PS → Res InfoDictionary * PS;
  initialize : InfoDictionary → HostSession → PS → Res unit * PS;
  flushCaches : HostSession → PS → Res unit * PS;
  managementPolicy :
    TraitSets → PolicyAccess → Context → HostSession → PS → Res TraitsDatas * PS;
  createState : HostSession → PS → Res ManagerStateBasePtr * PS;
  createChildState :
    ManagerStateBasePtr → HostSession → PS → Res ManagerStateBasePtr * PS;
  persistenceTokenForState : ManagerStateBasePtr → HostSession → PS → Res Str * PS;
  stateFromPersistenceToken : Str → HostSession → PS → Res ManagerStateBasePtr * PS;
  isEntityReferenceString : Str → HostSession → PS → Res bool * PS;
  entityExists :
    EntityReferences → Context → HostSession → PS → BatchRun bool * PS;
  entityTraits :
    EntityReferences → EntityTraitsAccess → Context → HostSession → PS →
    BatchRun TraitSet * PS;
  resolve :
    EntityReferences → TraitSet → ResolveAccess → Context → HostSession → PS →
    BatchRun TraitsDataPtr * PS;
  defaultEntityReference :
    TraitSets → DefaultEntityAccess → Context → HostSession → PS →
    BatchRun (option EntityReference) * PS;
  getWithRelationship :
    EntityReferences → TraitsDataPtr → TraitSet → nat → RelationsAccess → Context →
    HostSession → PS → BatchRun EntityReferencePagerInterface * PS;
  getWithRelationships :
    EntityReference → TraitsDatas → TraitSet → nat → RelationsAccess → Context →
    HostSession → PS → BatchRun EntityReferencePagerInterface * PS;
  preflight :
    EntityReferences → TraitsDatas → PublishingAccess → Context → HostSession →
    PS → BatchRun EntityReference * PS;
  register_ :
    EntityReferences → TraitsDatas → PublishingAccess → Context → HostSession →
    PS → BatchRun EntityReference * PS;
}.

(** The names of the methods, for the record of calls below. *)
Inductive Method :=
| M_identifier | M_displayName | M_hasCapability | M_info
| M_updateTerminology | M_settings | M_initialize | M_flushCaches
| M_managementPolicy | M_createState | M_createChildState
| M_persistenceTokenForState | M_stateFromPersistenceToken
| M_isEntityReferenceString | M_entityExists | M_entityTraits | M_resolve
| M_defaultEntityReference | M_getWithRelationship | M_getWithRelationships
| M_preflight | M_register_.

(** What crosses the boundary between facade and plugin: a call of a
    plugin method, or the plugin invoking one of the two callbacks it was
    handed. *)
Inductive Event :=
| Invoked (method : Method)
| SuccessCallback (index : nat)
| ErrorCallback (index : nat) (error : BatchElementError).

(** [ManagerInterfacePtr]: the plugin object, together with the record of
    what has crossed the boundary so far. The record is bookkeeping of
    the model; no code reads it. *)
Record Ptr (PS : Type) := mkPtr {
  object : PS;
  trace : list Event;
}.
End Interface.

Arguments callbacks {_ _} _.
Arguments completion {_ _} _.
Arguments mkBatchRun {_ _} _ _.
Arguments object {_ _} _.
Arguments trace {_ _} _.
Arguments mkPtr {_ _} _ _.
Arguments identifier {_ _} _.
Arguments displayName {_ _} _.
Arguments hasCapability {_ _} _.
Arguments info {_ _} _.
Arguments updateTerminology {_ _} _.
Arguments settings {_ _} _.
Arguments initialize {_ _} _.
Arguments flushCaches {_ _} _.
Arguments managementPolicy {_ _} _.
Arguments createState {_ _} _.
Arguments createChildState {_ _} _.
Arguments persistenceTokenForState {_ _} _.
Arguments stateFromPersistenceToken {_ _} _.
Arguments isEntityReferenceString {_ _} _.
Arguments entityExists {_ _} _.
Arguments entityTraits {_ _} _.
Arguments resolve {_ _} _.
Arguments defaultEntityReference {_ _} _.
Arguments getWithRelationship {_ _} _.
Arguments getWithRelationships {_ _} _.
Arguments preflight {_ _} _.
Arguments register_ {_ _} _.
End ManagerInterface.

(** ** Library functions the facade relies on *)

(** [t] occurs in [s] at offset [k]. *)
Definition occurs_at (t s : Str) (k : nat) : bool :=
  String.eqb (substring k (String.length t) s) t.

Fixpoint rfind_from (t s : Str) (k : nat) : option nat :=
  if occurs_at t s k then Some k
  else match k with
       | 0 => None
       | S k' => rfind_from t s k'
       end.

(** [s.rfind(t, pos)]: the highest offset, not above [pos], at which [t]
    occurs in [s]; [None] is [Str::npos]. *)
Definition rfind (s t : Str) (pos : nat) : option nat :=
  if String.length s <? String.length t then None
  else rfind_from t s (Nat.min pos (String.length s - String.length t)).

(** [fmt::join(v, sep)] once formatted. *)
Fixpoint join (v : list Str) (sep : Str) : Str :=
  match v with
  | [] => ""
  | [x] => x
  | x :: rest => x +:+ sep +:+ join rest sep
  end.

(** [std::to_string] of a [std::size_t]: its decimal digits. *)
Definition to_string (n : nat) : Str := pretty n.

(** [v[index] = x] on a vector: defined only inside the vector. *)
Definition assign `{Externals} {A} (v : list A) (index : nat) (x : A) : Res (list A) :=
  if decide (index < length v) then Ret (<[index := x]> v) else Undefined.

(** ** Calling into the plugin *)

Section Calls.
Context `{Externals} {PS : Type}.
Import ManagerInterface.

(** Calling a method of the plugin object behind the pointer. *)
Definition invoke {A} (method : Method) (f : PS → Res A * PS) : M (Ptr PS) A :=
  λ p, let (r, ps') := f (object p) in
       (r, mkPtr ps' (trace p ++ [Invoked method])).

Definition invoke_const {A} (method : Method) (f : PS → A) : M (Ptr PS) A :=
  λ p, (Ret (f (object p)), mkPtr (object p) (trace p ++ [Invoked method])).

(** A callback closure: it receives the index and the payload, and acts
    on the variables it has captured by reference, here [R]. *)
Definition Callback (V R : Type) : Type := nat → V → R → Res R.

(** The plugin works through its callbacks in order. A callback that does
    not return normally ends the run there. *)
Fixpoint deliver {V R}
    (successCallback : Callback V R)
    (errorCallback : Callback BatchElementError R)
    (cbs : list (nat * (BatchElementError + V)))
    (r : R) (tr : list Event) : Res R * list Event :=
  match cbs with
  | [] => (Ret r, tr)
  | (index, inr value) :: rest =>
      let tr' := tr ++ [SuccessCallback index] in
      match successCallback index value r with
      | Ret r' => deliver successCallback errorCallback rest r' tr'
      | Throw e => (Throw e, tr')
      | Undefined => (Undefined, tr')
      end
  | (index, inl error) :: rest =>
      let tr' := tr ++ [ErrorCallback index error] in
      match errorCallback index error r with
      | Ret r' => deliver successCallback errorCallback rest r' tr'
      | Throw e => (Throw e, tr')
      | Undefined => (Undefined, tr')
      end
  end.

(** Calling a batch method of the plugin with two callbacks. The result is
    that of the first callback that does not return or, when all return,
    that of the plugin's method itself. *)
Definition invokeBatch {V R} (method : Method) (f : PS → BatchRun V * PS)
    (successCallback : Callback V R)
    (errorCallback : Callback BatchElementError R) (r : R) : M (Ptr PS) R :=
  λ p, let (run, ps') := f (object p) in
       let (res, tr) :=
         deliver successCallback errorCallback (callbacks run) r
                 (trace p ++ [Invoked method]) in
       (match res with
        | Ret r' =>
            match completion run with
            | Ret _ => Ret r'
            | Throw e => Throw e
            | Undefined => Undefined
            end
        | Throw e => Throw e
        | Undefined => Undefined
        end, mkPtr ps' tr).
End Calls.

(** ** The helpers of the anonymous namespace *)

Section Helpers.
Context `{Externals} {PS : Type} (impl : ManagerInterface.t PS).
Import ManagerInterface.

Definition kRequiredCapabilities : list Capability :=
  [kEntityReferenceIdentification; kManagementPolicyQueries;
   kEntityTraitIntrospection].

(** The loop of [verifyRequiredCapabilities]. *)
Fixpoint collectMissingCapabilities (capabilities : list Capability)
    (missingCapabilities : list Str) : M (Ptr PS) (list Str) :=
  match capabilities with
  | [] => ret missingCapabilities
  | capability :: rest =>
      has ← invoke M_hasCapability (hasCapability impl capability);
      collectMissingCapabilities rest
        (if negb has
         then missingCapabilities ++ [kCapabilityNames capability]
         else missingCapabilities)
  end.

Definition verifyRequiredCapabilities : M (Ptr PS) unit :=
  missingCapabilities ← collectMissingCapabilities kRequiredCapabilities [];
  match missingCapabilities with
  | [] => ret tt
  | _ =>
      id ← invoke_const M_identifier (identifier impl);
      let msg :=
        "Manager implementation for '" +:+ id +:+
        "' does not support the required capabilities: " +:+
        join missingCapabilities ", " in
      throw (ConfigurationException msg)
  end.

Definition entityReferencePrefixFromInfo (logger : LoggerInterface)
    (info : InfoDictionary) : option Str * LoggerInterface :=
  match info !! kInfoKey_EntityReferencesMatchPrefix with
  | Some (VStr prefix) =>
      (Some prefix,
       debugApi
         ("Entity reference prefix '" +:+ prefix +:+
          "' provided by manager's info() dict. Subsequent" +:+
          " calls to isEntityReferenceString will use this prefix rather than call the" +:+
          " manager's implementation.") logger)
  | Some _ =>
      (None,
       warning
         "Entity reference prefix given but is an invalid type: should be a string."
         logger)
  | None => (None, logger)
  end.
End Helpers.

(** ** [hostApi::Manager] *)

Module Manager.
Section Manager.
Context `{Externals} {PS : Type} (impl : ManagerInterface.t PS).
Import ManagerInterface.

(** The data members of the facade. *)
Record t := mk {
  managerInterface_ : Ptr PS;
  hostSession_ : HostSession;
  entityReferencePrefix_ : option Str;
}.

(** [Manager::make]. *)
Definition make (managerInterface : Ptr PS) (hostSession : HostSession) : t :=
  {| managerInterface_ := managerInterface;
     hostSession_ := hostSession;
     entityReferencePrefix_ := None |}.

(** A call through [managerInterface_], handing over [hostSession_]
    where the method takes it. *)
Definition onInterface {A} (c : HostSession → M (Ptr PS) A) : M t A :=
  λ m, let (r, p) := c (hostSession_ m) (managerInterface_ m) in
       (r, {| managerInterface_ := p;
              hostSession_ := hostSession_ m;
              entityReferencePrefix_ := entityReferencePrefix_ m |}).

(** The facade after a call of one plugin method that left the plugin in
    state [ps']: the shape every plain forwarding call leaves behind. *)
Definition afterCall (method : Method) (ps' : PS) (m : t) : t :=
  {| managerInterface_ :=
       mkPtr ps' (trace (managerInterface_ m) ++ [Invoked method]);
     hostSession_ := hostSession_ m;
     entityReferencePrefix_ := entityReferencePrefix_ m |}.

Definition identifier : M t Identifier :=
  onInterface (λ _, invoke_const M_identifier (identifier impl)).

Definition displayName : M t Str :=
  onInterface (λ _, invoke_const M_displayName (displayName impl)).

(** The [static_cast] from [Manager::Capability] to
    [ManagerInterface::Capability] keeps the enum value. *)
Definition hasCapability (capability : Capability) : M t bool :=
  onInterface (λ _, invoke M_hasCapability (hasCapability impl capability)).

Definition info : M t InfoDictionary :=
  onInterface (λ _, invoke M_info (info impl)).

Definition updateTerminology (terms : StrMap) : M t StrMap :=
  onInterface (λ hostSession,
    invoke M_updateTerminology (updateTerminology impl terms hostSession)).

Definition settings : M t InfoDictionary :=
  onInterface (λ hostSession, invoke M_settings (settings impl hostSession)).

Definition initialize (managerSettings : InfoDictionary) : M t unit :=
  _ ← onInterface (λ hostSession,
        invoke M_initialize (initialize impl managerSettings hostSession));
  _ ← onInterface (λ _, verifyRequiredCapabilities impl);
  info ← onInterface (λ _, invoke M_info (ManagerInterface.info impl));
  (λ m, let (prefix, logger') :=
          entityReferencePrefixFromInfo (logger (hostSession_ m)) info in
        (Ret tt, {| managerInterface_ := managerInterface_ m;
                    hostSession_ := {| logger := logger' |};
                    entityReferencePrefix_ := prefix |})) : M t unit.

Definition flushCaches : M t unit :=
  onInterface (λ hostSession, invoke M_flushCaches (flushCaches impl hostSession)).

Definition managementPolicy (traitSets : TraitSets) (policyAccess : PolicyAccess)
    (context : Context) : M t TraitsDatas :=
  onInterface (λ hostSession,
    invoke M_managementPolicy
           (managementPolicy impl traitSets policyAccess context hostSession)).

(** [Context::make()] yields a context without manager state; the locale is
    assigned last. *)
Definition createContext : M t Context :=
  let context := Context_make None in
  stateful ← hasCapability kStatefulContexts;
  context ←
    (if stateful : bool
     then state ← onInterface (λ hostSession,
                    invoke M_createState (createState impl hostSession));
          mret {| locale := locale context; managerState := state |}
     else mret context);
  mret {| locale := Some TraitsData_make; managerState := managerState context |}.

(** [TraitsData::make(parentContext->locale)] copy-constructs the locale;
    with values in place of pointers the copy is the value itself. *)
Definition createChildContext (parentContext : Context) : M t Context :=
  let context := Context_make (locale parentContext) in
  match managerState parentContext with
  | Some _ =>
      state ← onInterface (λ hostSession,
                invoke M_createChildState
                       (createChildState impl (managerState parentContext) hostSession));
      mret {| locale := locale context; managerState := state |}
  | None => mret context
  end.

Definition persistenceTokenForContext (context : Context) : M t Str :=
  match managerState context with
  | Some _ =>
      onInterface (λ hostSession,
        invoke M_persistenceTokenForState
               (persistenceTokenForState impl (managerState context) hostSession))
  | None => mret ""
  end.

Definition contextFromPersistenceToken (token : Str) : M t Context :=
  let context := Context_make None in
  if negb (String.eqb token "")
  then state ← onInterface (λ hostSession,
                 invoke M_stateFromPersistenceToken
                        (stateFromPersistenceToken impl token hostSession));
       mret {| locale := locale context; managerState := state |}
  else mret context.

Definition isEntityReferenceString (someString : Str) : M t bool :=
  λ m, match entityReferencePrefix_ m with
       | None =>
           onInterface (λ hostSession,
             invoke M_isEntityReferenceString
                    (isEntityReferenceString impl someString hostSession)) m
       | Some prefix =>
           (Ret (bool_decide (rfind someString prefix 0 ≠ None)), m)
       end.

Definition kCreateEntityReferenceErrorMessage : Str := "Invalid entity reference: ".

Definition createEntityReference (entityReferenceString : Str) : M t EntityReference :=
  valid ← isEntityReferenceString entityReferenceString;
  if negb valid
  then throw (InputValidationException
                (kCreateEntityReferenceErrorMessage +:+ entityReferenceString))
  else mret (mkEntityReference entityReferenceString).

Definition createEntityReferenceIfValid (entityReferenceString : Str)
    : M t (option EntityReference) :=
  valid ← isEntityReferenceString entityReferenceString;
  if negb valid
  then mret None
  else mret (Some (mkEntityReference entityReferenceString)).

(** *** The batch operations with caller-supplied callbacks

    The callbacks act on the caller's state [R]; each operation returns
    that state as the callbacks have left it. *)

Definition entityExists {R} (entityReferences : EntityReferences)
    (context : Context) (successCallback : Callback bool R)
    (errorCallback : Callback BatchElementError R) (r : R) : M t R :=
  onInterface (λ hostSession,
    invokeBatch M_entityExists
      (entityExists impl entityReferences context hostSession)
      successCallback errorCallback r).

Definition entityTraits {R} (entityReferences : EntityReferences)
    (entityTraitsAccess : EntityTraitsAccess) (context : Context)
    (successCallback : Callback TraitSet R)
    (errorCallback : Callback BatchElementError R) (r : R) : M t R :=
  onInterface (λ hostSession,
    invokeBatch M_entityTraits
      (entityTraits impl entityReferences entityTraitsAccess context hostSession)
      successCallback errorCallback r).

Definition resolve {R} (entityReferences : EntityReferences)
    (traitSet : TraitSet) (resolveAccess : ResolveAccess) (context : Context)
    (successCallback : Callback TraitsDataPtr R)
    (errorCallback : Callback BatchElementError R) (r : R) : M t R :=
  onInterface (λ hostSession,
    invokeBatch M_resolve
      (resolve impl entityReferences traitSet resolveAccess context hostSession)
      successCallback errorCallback r).

Definition defaultEntityReference {R} (traitSets : TraitSets)
    (defaultEntityAccess : DefaultEntityAccess) (context : Context)
    (successCallback : Callback (option EntityReference) R)
    (errorCallback : Callback BatchElementError R) (r : R) : M t R :=
  onInterface (λ hostSession,
    invokeBatch M_defaultEntityReference
      (defaultEntityReference impl traitSets defaultEntityAccess context hostSession)
      successCallback errorCallback r).

Definition getWithRelationship {R} (entityReferences : EntityReferences)
    (relationshipTraitsData : TraitsDataPtr) (pageSize : nat)
    (relationsAccess : RelationsAccess) (context : Context)
    (successCallback : Callback EntityReferencePager R)
    (errorCallback : Callback BatchElementError R)
    (resultTraitSet : TraitSet) (r : R) : M t R :=
  if pageSize =? 0
  then throw (InputValidationException "pageSize must be greater than zero.")
  else
    onInterface (λ hostSession,
      let convertingPagerSuccessCallback : Callback EntityReferencePagerInterface R :=
        λ idx pagerInterface,
          let pager := mkEntityReferencePager pagerInterface hostSession in
          successCallback idx pager in
      invokeBatch M_getWithRelationship
        (getWithRelationship impl entityReferences relationshipTraitsData
           resultTraitSet pageSize relationsAccess context hostSession)
        convertingPagerSuccessCallback errorCallback r).

Definition getWithRelationships {R} (entityReference : EntityReference)
    (relationshipTraitsDatas : TraitsDatas) (pageSize : nat)
    (relationsAccess : RelationsAccess) (context : Context)
    (successCallback : Callback EntityReferencePager R)
    (errorCallback : Callback BatchElementError R)
    (resultTraitSet : TraitSet) (r : R) : M t R :=
  if pageSize =? 0
  then throw (InputValidationException "pageSize must be greater than zero.")
  else
    onInterface (λ hostSession,
      let convertingPagerSuccessCallback : Callback EntityReferencePagerInterface R :=
        λ idx pagerInterface,
          let pager := mkEntityReferencePager pagerInterface hostSession in
          successCallback idx pager in
      invokeBatch M_getWithRelationships
        (getWithRelationships impl entityReference relationshipTraitsDatas
           resultTraitSet pageSize relationsAccess context hostSession)
        convertingPagerSuccessCallback errorCallback r).

Definition preflight {R} (entityReferences : EntityReferences)
    (traitsHints : TraitsDatas) (publishingAccess : PublishingAccess)
    (context : Context) (successCallback : Callback EntityReference R)
    (errorCallback : Callback BatchElementError R) (r : R) : M t R :=
  if negb (length entityReferences =? length traitsHints)
  then
    let message := "Parameter lists must be of the same length: " in
    let message := message +:+ to_string (length entityReferences) in
    let message := message +:+ " entity references vs. " in
    let message := message +:+ to_string (length traitsHints) in
    let message := message +:+ " traits hints." in
    throw (InputValidationException message)
  else
    onInterface (λ hostSession,
      invokeBatch M_preflight
        (preflight impl entityReferences traitsHints publishingAccess context
           hostSession)
        successCallback errorCallback r).

Definition register_ {R} (entityReferences : EntityReferences)
    (entityTraitsDatas : TraitsDatas) (publishingAccess : PublishingAccess)
    (context : Context) (successCallback : Callback EntityReference R)
    (errorCallback : Callback BatchElementError R) (r : R) : M t R :=
  if negb (length entityReferences =? length entityTraitsDatas)
  then
    let message := "Parameter lists must be of the same length: " in
    let message := message +:+ to_string (length entityReferences) in
    let message := message +:+ " entity references vs. " in
    let message := message +:+ to_string (length entityTraitsDatas) in
    let message := message +:+ " traits datas." in
    throw (InputValidationException message)
  else
    onInterface (λ hostSession,
      invokeBatch M_register_
        (register_ impl entityReferences entityTraitsDatas publishingAccess
           context hostSession)
        successCallback errorCallback r).

(** *** The derived call shapes of [resolve]

    Each closure captures its result variable by reference; that variable
    is the state the closure acts on. *)

(** Singular, exception. *)
Definition resolve_singular_except (entityReference : EntityReference)
    (traitSet : TraitSet) (resolveAccess : ResolveAccess) (context : Context)
    : M t TraitsDataPtr :=
  let resolveResult : TraitsDataPtr := None in
  resolve [entityReference] traitSet resolveAccess context
    (λ index data resolveResult, Ret data)
    (λ index error resolveResult,
       let msg := createBatchElementExceptionMessage error index entityReference
                    (resolveAccess_cast resolveAccess) in
       Throw (BatchElementException index error msg))
    resolveResult.

(** Singular, variant. *)
Definition resolve_singular_variant (entityReference : EntityReference)
    (traitSet : TraitSet) (resolveAccess : ResolveAccess) (context : Context)
    : M t (Variant TraitsDataPtr) :=
  let resolveResult : Variant TraitsDataPtr := VError BatchElementError_default in
  resolve [entityReference] traitSet resolveAccess context
    (λ index data resolveResult, Ret (VValue data))
    (λ index error resolveResult, Ret (VError error))
    resolveResult.

(** Multi, exception. *)
Definition resolve_multi_except (entityReferences : EntityReferences)
    (traitSet : TraitSet) (resolveAccess : ResolveAccess) (context : Context)
    : M t (list TraitsDataPtr) :=
  let resolveResult : list TraitsDataPtr :=
    replicate (length entityReferences) None in
  resolve entityReferences traitSet resolveAccess context
    (λ index data resolveResult, assign resolveResult index data)
    (λ index error resolveResult,
       match entityReferences !! index with
       | Some entityReference =>
           let msg := createBatchElementExceptionMessage error index
                        entityReference (resolveAccess_cast resolveAccess) in
           Throw (BatchElementException index error msg)
       | None => Undefined
       end)
    resolveResult.

(** Multi, variant. *)
Definition resolve_multi_variant (entityReferences : EntityReferences)
    (traitSet : TraitSet) (resolveAccess : ResolveAccess) (context : Context)
    : M t (list (Variant TraitsDataPtr)) :=
  let resolveResult : list (Variant TraitsDataPtr) :=
    replicate (length entityReferences) (VError BatchElementError_default) in
  resolve entityReferences traitSet resolveAccess context
    (λ index data resolveResult, assign resolveResult index (VValue data))
    (λ index error resolveResult, assign resolveResult index (VError error))
    resolveResult.

(** *** The derived call shapes of [preflight] *)

Definition preflight_singular_except (entityReference : EntityReference)
    (traitsHint : TraitsDataPtr) (publishingAccess : PublishingAccess)
    (context : Context) : M t EntityReference :=
  let result := mkEntityReference "" in
  preflight [entityReference] [traitsHint] publishingAccess context
    (λ index preflightedRef result, Ret preflightedRef)
    (λ index error result,
       let msg := createBatchElementExceptionMessage error index entityReference
                    (publishingAccess_cast publishingAccess) in
       Throw (BatchElementException index error msg))
    result.

Definition preflight_singular_variant (entityReference : EntityReference)
    (traitsHint : TraitsDataPtr) (publishingAccess : PublishingAccess)
    (context : Context) : M t (Variant EntityReference) :=
  let result : Variant EntityReference := VError BatchElementError_default in
  preflight [entityReference] [traitsHint] publishingAccess context
    (λ index preflightedRef result, Ret (VValue preflightedRef))
    (λ index error result, Ret (VError error))
    result.

Definition preflight_multi_except (entityReferences : EntityReferences)
    (traitsHints : TraitsDatas) (publishingAccess : PublishingAccess)
    (context : Context) : M t EntityReferences :=
  let results : EntityReferences :=
    replicate (length entityReferences) (mkEntityReference "") in
  preflight entityReferences traitsHints publishingAccess context
    (λ index preflightedRef results, assign results index preflightedRef)
    (λ index error results,
       match entityReferences !! index with
       | Some entityReference =>
           let msg := createBatchElementExceptionMessage error index
                        entityReference (publishingAccess_cast publishingAccess) in
           Throw (BatchElementException index error msg)
       | None => Undefined
       end)
    results.

Definition preflight_multi_variant (entityReferences : EntityReferences)
    (traitsHints : TraitsDatas) (publishingAccess : PublishingAccess)
    (context : Context) : M t (list (Variant EntityReference)) :=
  let results : list (Variant EntityReference) :=
    replicate (length entityReferences) (VError BatchElementError_default) in
  preflight entityReferences traitsHints publishingAccess context
    (λ index entityReference results, assign results index (VValue entityReference))
    (λ index error results, assign results index (VError error))
    results.

(** *** The derived call shapes of [register_] *)

Definition register_singular_except (entityReference : EntityReference)
    (entityTraitsData : TraitsDataPtr) (publishingAccess : PublishingAccess)
    (context : Context) : M t EntityReference :=
  let result := mkEntityReference "" in
  register_ [entityReference] [entityTraitsData] publishingAccess context
    (λ index registeredRef result, Ret registeredRef)
    (λ index error result,
       let msg := createBatchElementExceptionMessage error index entityReference
                    (publishingAccess_cast publishingAccess) in
       Throw (BatchElementException index error msg))
    result.

Definition register_singular_variant (entityReference : EntityReference)
    (entityTraitsData : TraitsDataPtr) (publishingAccess : PublishingAccess)
    (context : Context) : M t (Variant EntityReference) :=
  let result : Variant EntityReference := VError BatchElementError_default in
  register_ [entityReference] [entityTraitsData] publishingAccess context
    (λ index registeredRef result, Ret (VValue registeredRef))
    (λ index error result, Ret (VError error))
    result.

Definition register_multi_except (entityReferences : EntityReferences)
    (entityTraitsDatas : TraitsDatas) (publishingAccess : PublishingAccess)
    (context : Context) : M t (list EntityReference) :=
  let result : list EntityReference :=
    replicate (length entityReferences) (mkEntityReference "") in
  register_ entityReferences entityTraitsDatas publishingAccess context
    (λ index registeredRef result, assign result index registeredRef)
    (λ index error result,
       match entityReferences !! index with
       | Some entityReference =>
           let msg := createBatchElementExceptionMessage error index
                        entityReference (publishingAccess_cast publishingAccess) in
           Throw (BatchElementException index error msg)
       | None => Undefined
       end)
    result.

Definition register_multi_variant (entityReferences : EntityReferences)
    (entityTraitsDatas : TraitsDatas) (publishingAccess : PublishingAccess)
    (context : Context) : M t (list (Variant EntityReference)) :=
  let result : list (Variant EntityReference) :=
    replicate (length entityReferences) (VError BatchElementError_default) in
  register_ entityReferences entityTraitsDatas publishingAccess context
    (λ index registeredRef result, assign result index (VValue registeredRef))
    (λ index error result, assign result index (VError error))
    result.
End Manager.

Arguments t {_} PS.
Arguments mk {_ _} _ _ _.

(** *** The public operations as data

    One constructor per public member function, holding its arguments, so
    that a host's use of one facade can be written as a list of
    operations. For the operations that take callbacks, the caller's state
    [R] and its initial value are part of the call; the callbacks act on
    that state and do not call back into the facade. *)
Section Operations.
Context `{Externals} {PS : Type} (impl : ManagerInterface.t PS).

Inductive Operation :=
| Op_identifier
| Op_displayName
| Op_hasCapability (capability : Capability)
| Op_info
| Op_updateTerminology (terms : StrMap)
| Op_settings
| Op_initialize (managerSettings : InfoDictionary)
| Op_flushCaches
| Op_managementPolicy (traitSets : TraitSets) (policyAccess : PolicyAccess)
    (context : Context)
| Op_createContext
| Op_createChildContext (parentContext : Context)
| Op_persistenceTokenForContext (context : Context)
| Op_contextFromPersistenceToken (token : Str)
| Op_isEntityReferenceString (someString : Str)
| Op_createEntityReference (entityReferenceString : Str)
| Op_createEntityReferenceIfValid (entityReferenceString : Str)
| Op_entityExists (R : Type) (entityReferences : EntityReferences)
    (context : Context) (successCallback : Callback bool R)
    (errorCallback : Callback BatchElementError R) (r : R)
| Op_entityTraits (R : Type) (entityReferences : EntityReferences)
    (entityTraitsAccess : EntityTraitsAccess) (context : Context)
    (successCallback : Callback TraitSet R)
    (errorCallback : Callback BatchElementError R) (r : R)
| Op_resolve (R : Type) (entityReferences : EntityReferences)
    (traitSet : TraitSet) (resolveAccess : ResolveAccess) (context : Context)
    (successCallback : Callback TraitsDataPtr R)
    (errorCallback : Callback BatchElementError R) (r : R)
| Op_resolve_singular_except (entityReference : EntityReference)
    (traitSet : TraitSet) (resolveAccess : ResolveAccess) (context : Context)
| Op_resolve_singular_variant (entityReference : EntityReference)
    (traitSet : TraitSet) (resolveAccess : ResolveAccess) (context : Context)
| Op_resolve_multi_except (entityReferences : EntityReferences)
    (traitSet : TraitSet) (resolveAccess : ResolveAccess) (context : Context)
| Op_resolve_multi_variant (entityReferences : EntityReferences)
    (traitSet : TraitSet) (resolveAccess : ResolveAccess) (context : Context)
| Op_defaultEntityReference (R : Type) (traitSets : TraitSets)
    (defaultEntityAccess : DefaultEntityAccess) (context : Context)
    (successCallback : Callback (option EntityReference) R)
    (errorCallback : Callback BatchElementError R) (r : R)
| Op_getWithRelationship (R : Type) (entityReferences : EntityReferences)
    (relationshipTraitsData : TraitsDataPtr) (pageSize : nat)
    (relationsAccess : RelationsAccess) (context : Context)
    (successCallback : Callback EntityReferencePager R)
    (errorCallback : Callback BatchElementError R)
    (resultTraitSet : TraitSet) (r : R)
| Op_getWithRelationships (R : Type) (entityReference : EntityReference)
    (relationshipTraitsDatas : TraitsDatas) (pageSize : nat)
    (relationsAccess : RelationsAccess) (context : Context)
    (successCallback : Callback EntityReferencePager R)
    (errorCallback : Callback BatchElementError R)
    (resultTraitSet : TraitSet) (r : R)
| Op_preflight (R : Type) (entityReferences : EntityReferences)
    (traitsHints : TraitsDatas) (publishingAccess : PublishingAccess)
    (context : Context) (successCallback : Callback EntityReference R)
    (errorCallback : Callback BatchElementError R) (r : R)
| Op_preflight_singular_except (entityReference : EntityReference)
    (traitsHint : TraitsDataPtr) (publishingAccess : PublishingAccess)
    (context : Context)
| Op_preflight_singular_variant (entityReference : EntityReference)
    (traitsHint : TraitsDataPtr) (publishingAccess : PublishingAccess)
    (context : Context)
| Op_preflight_multi_except (entityReferences : EntityReferences)
    (traitsHints : TraitsDatas) (publishingAccess : PublishingAccess)
    (context : Context)
| Op_preflight_multi_variant (entityReferences : EntityReferences)
    (traitsHints : TraitsDatas) (publishingAccess : PublishingAccess)
    (context : Context)
| Op_register_ (R : Type) (entityReferences : EntityReferences)
    (entityTraitsDatas : TraitsDatas) (publishingAccess : PublishingAccess)
    (context : Context) (successCallback : Callback EntityReference R)
    (errorCallback : Callback BatchElementError R) (r : R)
| Op_register_singular_except (entityReference : EntityReference)
    (entityTraitsData : TraitsDataPtr) (publishingAccess : PublishingAccess)
    (context : Context)
| Op_register_singular_variant (entityReference : EntityReference)
    (entityTraitsData : TraitsDataPtr) (publishingAccess : PublishingAccess)
    (context : Context)
| Op_register_multi_except (entityReferences : EntityReferences)
    (entityTraitsDatas : TraitsDatas) (publishingAccess : PublishingAccess)
    (context : Context)
| Op_register_multi_variant (entityReferences : EntityReferences)
    (entityTraitsDatas : TraitsDatas) (publishingAccess : PublishingAccess)
    (context : Context).

(** The facade after an operation, however the operation ended. *)
Definition perform (op : Operation) (m : t PS) : t PS :=
  match op with
  | Op_identifier => (identifier impl m).2
  | Op_displayName => (displayName impl m).2
  | Op_hasCapability c => (hasCapability impl c m).2
  | Op_info => (info impl m).2
  | Op_updateTerminology terms => (updateTerminology impl terms m).2
  | Op_settings => (settings impl m).2
  | Op_initialize s => (initialize impl s m).2
  | Op_flushCaches => (flushCaches impl m).2
  | Op_managementPolicy ts a c => (managementPolicy impl ts a c m).2
  | Op_createContext => (createContext impl m).2
  | Op_createChildContext c => (createChildContext impl c m).2
  | Op_persistenceTokenForContext c => (persistenceTokenForContext impl c m).2
  | Op_contextFromPersistenceToken tok => (contextFromPersistenceToken impl tok m).2
  | Op_isEntityReferenceString s => (isEntityReferenceString impl s m).2
  | Op_createEntityReference s => (createEntityReference impl s m).2
  | Op_createEntityReferenceIfValid s => (createEntityReferenceIfValid impl s m).2
  | Op_entityExists R refs c sc ec r => (entityExists impl refs c sc ec r m).2
  | Op_entityTraits R refs a c sc ec r => (entityTraits impl refs a c sc ec r m).2
  | Op_resolve R refs ts a c sc ec r => (resolve impl refs ts a c sc ec r m).2
  | Op_resolve_singular_except ref ts a c =>
      (resolve_singular_except impl ref ts a c m).2
  | Op_resolve_singular_variant ref ts a c =>
      (resolve_singular_variant impl ref ts a c m).2
  | Op_resolve_multi_except refs ts a c => (resolve_multi_except impl refs ts a c m).2
  | Op_resolve_multi_variant refs ts a c =>
      (resolve_multi_variant impl refs ts a c m).2
  | Op_defaultEntityReference R ts a c sc ec r =>
      (defaultEntityReference impl ts a c sc ec r m).2
  | Op_getWithRelationship R refs rel n a c sc ec rts r =>
      (getWithRelationship impl refs rel n a c sc ec rts r m).2
  | Op_getWithRelationships R ref rels n a c sc ec rts r =>
      (getWithRelationships impl ref rels n a c sc ec rts r m).2
  | Op_preflight R refs hints a c sc ec r =>
      (preflight impl refs hints a c sc ec r m).2
  | Op_preflight_singular_except ref hint a c =>
      (preflight_singular_except impl ref hint a c m).2
  | Op_preflight_singular_variant ref hint a c =>
      (preflight_singular_variant impl ref hint a c m).2
  | Op_preflight_multi_except refs hints a c =>
      (preflight_multi_except impl refs hints a c m).2
  | Op_preflight_multi_variant refs hints a c =>
      (preflight_multi_variant impl refs hints a c m).2
  | Op_register_ R refs datas a c sc ec r =>
      (register_ impl refs datas a c sc ec r m).2
  | Op_register_singular_except ref data a c =>
      (register_singular_except impl ref data a c m).2
  | Op_register_singular_variant ref data a c =>
      (register_singular_variant impl ref data a c m).2
  | Op_register_multi_except refs datas a c =>
      (register_multi_except impl refs datas a c m).2
  | Op_register_multi_variant refs datas a c =>
      (register_multi_variant impl refs datas a c m).2
  end.

(** A sequence of operations on one facade, first to last. *)
Definition performAll (ops : list Operation) (m : t PS) : t PS :=
  foldl (λ m op, perform op m) m ops.

Definition is_initialize (op : Operation) : bool :=
  match op with
  | Op_initialize _ => true
  | _ => false
  end.

(** A computation of the facade that leaves the cached prefix as it
    found it, however it ends. *)
Definition keeps_prefix {A} (c : M (t PS) A) : Prop :=
  ∀ m, entityReferencePrefix_ (c m).2 = entityReferencePrefix_ m.


(** A batch run over [n] inputs in which the plugin invokes exactly one
    callback per index. *)
Definition oneCallbackPerIndex {V} (n : nat)
    (run : ManagerInterface.BatchRun V) : Prop :=
  (ManagerInterface.callbacks run).*1 ≡ₚ seq 0 n.

(** The two closures of a plural, exception-throwing shape, over the
    input references and the access mode they capture. *)
Definition failFast_store {V} : Callback V (list V) :=
  λ index value res, assign res index value.
Definition failFast_raise {V} (refs : EntityReferences) (a : Access)
    : Callback BatchElementError (list V) :=
  λ index error _,
    match refs !! index with
    | Some ref =>
        Throw (BatchElementException index error
                 (createBatchElementExceptionMessage error index ref a))
    | None => Undefined
    end.

(** What one callback of a run puts into a variant. *)
Definition variantOf {V} (outcome : BatchElementError + V) : Variant V :=
  match outcome with
  | inl error => VError error
  | inr value => VValue value
  end.
End Operations.
End Manager.

(** ** A deterministic stub plugin

    A small manager plugin in the style of the test doubles used with the
    facade. It reports the settings it was initialised with as its info
    dictionary, refuses settings that hold the key ["invalid"], advertises
    every capability whose name its settings do not map to [false], and
    answers every batch call in input order, failing the entity references
    that read ["missing"]. *)

Module Stub.
Inductive capability := ERI | MPQ | ETI | SC.
Inductive access := kRead | kWrite.
Record batchElementError := mkError { code : nat; message : Str }.

Definition capabilityName (c : capability) : Str :=
  match c with
  | ERI => "entityReferenceIdentification"
  | MPQ => "managementPolicyQueries"
  | ETI => "entityTraitIntrospection"
  | SC => "statefulContexts"
  end.

#[local] Instance externals : Externals := {|
  Capability := capability;
  kEntityReferenceIdentification := ERI;
  kManagementPolicyQueries := MPQ;
  kEntityTraitIntrospection := ETI;
  kStatefulContexts := SC;
  kCapabilityNames := capabilityName;
  kInfoKey_EntityReferencesMatchPrefix := "entityReferencesMatchPrefix";
  TraitsData := list Str;
  TraitsData_make := [];
  TraitSet := list Str;
  ManagerStateBase := nat;
  EntityReferencePagerInterface := nat;
  BatchElementError := batchElementError;
  BatchElementError_default := mkError 0 "";
  Access := access;
  PolicyAccess := access;
  EntityTraitsAccess := access;
  DefaultEntityAccess := access;
  RelationsAccess := access;
  ResolveAccess := access;
  PublishingAccess := access;
  resolveAccess_cast := λ a, a;
  publishingAccess_cast := λ a, a;
  createBatchElementExceptionMessage := λ error index ref a,
    message error +:+ " [index=" +:+ pretty index +:+ "] [access=" +:+
    (match a with kRead => "read" | kWrite => "write" end) +:+
    "] [entity=" +:+ toString ref +:+ "]";
|}.

(** The plugin's private state: the settings it holds. *)
Record state := mkState { held_settings : InfoDictionary }.

Definition advertises (ps : state) (c : capability) : bool :=
  match held_settings ps !! capabilityName c with
  | Some (VBool false) => false
  | _ => true
  end.

Definition kEntityResolutionError : BatchElementError :=
  mkError 130 "entity not found".

(** One callback per entity reference, in input order. *)
Definition answers {V} (value : EntityReference → V) (refs : EntityReferences)
    : ManagerInterface.BatchRun V :=
  ManagerInterface.mkBatchRun
    (imap (λ index ref,
             if String.eqb (toString ref) "missing"
             then (index, inl kEntityResolutionError)
             else (index, inr (value ref)))
          refs)
    (Ret tt).

Definition plugin : ManagerInterface.t state := {|
  ManagerInterface.identifier := λ _, "org.stub.manager";
  ManagerInterface.displayName := λ _, "Stub Manager";
  ManagerInterface.hasCapability := λ c ps, (Ret (advertises ps c), ps);
  ManagerInterface.info := λ ps, (Ret (held_settings ps), ps);
  ManagerInterface.updateTerminology := λ terms _ ps, (Ret terms, ps);
  ManagerInterface.settings := λ _ ps, (Ret (held_settings ps), ps);
  ManagerInterface.initialize := λ managerSettings _ ps,
    match managerSettings !! "invalid" with
    | Some _ => (Throw (ForeignException "settings rejected"), ps)
    | None => (Ret tt, mkState managerSettings)
    end;
  ManagerInterface.flushCaches := λ _ ps, (Ret tt, ps);
  ManagerInterface.managementPolicy := λ traitSets _ _ _ ps,
    (Ret (replicate (length traitSets) (Some [])), ps);
  ManagerInterface.createState := λ _ ps, (Ret (Some 0), ps);
  ManagerInterface.createChildState := λ parent _ ps, (Ret (S <$> parent), ps);
  ManagerInterface.persistenceTokenForState := λ st _ ps,
    (Ret (from_option pretty "" st), ps);
  ManagerInterface.stateFromPersistenceToken := λ token _ ps,
    (Ret (Some (String.length token)), ps);
  ManagerInterface.isEntityReferenceString := λ someString _ ps,
    (Ret (String.prefix "stub://" someString), ps);
  ManagerInterface.entityExists := λ refs _ _ ps, (answers (λ _, true) refs, ps);
  ManagerInterface.entityTraits := λ refs _ _ _ ps, (answers (λ _, []) refs, ps);
  ManagerInterface.resolve := λ refs _ _ _ _ ps,
    (answers (λ ref, Some [toString ref]) refs, ps);
  ManagerInterface.defaultEntityReference := λ traitSets _ _ _ ps,
    (ManagerInterface.mkBatchRun
       (imap (λ index _, (index, inr None)) traitSets) (Ret tt), ps);
  ManagerInterface.getWithRelationship := λ refs _ _ pageSize _ _ _ ps,
    (answers (λ _, pageSize) refs, ps);
  ManagerInterface.getWithRelationships := λ ref rels _ pageSize _ _ _ ps,
    (ManagerInterface.mkBatchRun
       (imap (λ index _, (index, inr pageSize)) rels) (Ret tt), ps);
  ManagerInterface.preflight := λ refs _ _ _ _ ps, (answers (λ ref, ref) refs, ps);
  ManagerInterface.register_ := λ refs _ _ _ _ ps, (answers (λ ref, ref) refs, ps);
|}.

(** A facade over the stub, not yet initialised. *)
Definition manager : Manager.t state :=
  Manager.make (ManagerInterface.mkPtr (mkState ∅) []) (mkHostSession []).

(** Settings that make the stub report [prefix] as its entity reference
    prefix, and the facade initialised with them. *)
Definition prefixSettings (prefix : Str) : InfoDictionary :=
  {[ "entityReferencesMatchPrefix" := VStr prefix ]}.

Definition initialized (prefix : Str) : Manager.t state :=
  (Manager.initialize plugin (prefixSettings prefix) manager).2.

(** Settings that make the stub deny two of the required capabilities. *)
Definition denyingSettings : InfoDictionary :=
  {[ "entityReferenceIdentification" := VBool false;
     "entityTraitIntrospection" := VBool false;
     "entityReferencesMatchPrefix" := VStr "other:" ]}.

Definition context : Context := Context_make None.

Definition missingRef : EntityReference := mkEntityReference "missing".

Definition threeRefs : EntityReferences :=
  [mkEntityReference "stub://a"; missingRef; mkEntityReference "stub://c"].
End Stub.

(** ** A third stub: a plugin whose resolution fails as a whole

    As the first stub, except that [resolve], after it has invoked one
    callback for every entity reference, throws an exception of its
    own. *)

Module FailingStub.
Import Stub.
#[local] Existing Instance Stub.externals.

Definition kBackendLost : Exception := ForeignException "backend lost".

Definition plugin : ManagerInterface.t state := {|
  ManagerInterface.identifier := ManagerInterface.identifier Stub.plugin;
  ManagerInterface.displayName := ManagerInterface.displayName Stub.plugin;
  ManagerInterface.hasCapability := ManagerInterface.hasCapability Stub.plugin;
  ManagerInterface.info := ManagerInterface.info Stub.plugin;
  ManagerInterface.updateTerminology := ManagerInterface.updateTerminology Stub.plugin;
  ManagerInterface.settings := ManagerInterface.settings Stub.plugin;
  ManagerInterface.initialize := ManagerInterface.initialize Stub.plugin;
  ManagerInterface.flushCaches := ManagerInterface.flushCaches Stub.plugin;
  ManagerInterface.managementPolicy := ManagerInterface.managementPolicy Stub.plugin;
  ManagerInterface.createState := ManagerInterface.createState Stub.plugin;
  ManagerInterface.createChildState := ManagerInterface.createChildState Stub.plugin;
  ManagerInterface.persistenceTokenForState :=
    ManagerInterface.persistenceTokenForState Stub.plugin;
  ManagerInterface.stateFromPersistenceToken :=
    ManagerInterface.stateFromPersistenceToken Stub.plugin;
  ManagerInterface.isEntityReferenceString :=
    ManagerInterface.isEntityReferenceString Stub.plugin;
  ManagerInterface.entityExists := ManagerInterface.entityExists Stub.plugin;
  ManagerInterface.entityTraits := ManagerInterface.entityTraits Stub.plugin;
  ManagerInterface.resolve := λ refs _ _ _ _ ps,
    (ManagerInterface.mkBatchRun
       (ManagerInterface.callbacks (answers (λ ref, Some [toString ref]) refs))
       (Throw kBackendLost), ps);
  ManagerInterface.defaultEntityReference :=
    ManagerInterface.defaultEntityReference Stub.plugin;
  ManagerInterface.getWithRelationship :=
    ManagerInterface.getWithRelationship Stub.plugin;
  ManagerInterface.getWithRelationships :=
    ManagerInterface.getWithRelationships Stub.plugin;
  ManagerInterface.preflight := ManagerInterface.preflight Stub.plugin;
  ManagerInterface.register_ := ManagerInterface.register_ Stub.plugin;
|}.

End FailingStub.

(** ** Vocabulary for the properties of the remaining operations *)

Section Vocabulary.
Context `{Externals} {PS : Type}.
Import ManagerInterface.

(** A part of a batch run made of success callbacks only. *)
Definition successes {V} (vals : list (nat * V))
    : list (nat * (BatchElementError + V)) :=
  (λ iv, (iv.1, inr iv.2)) <$> vals.

(** The event each callback of a run leaves in the trace. *)
Definition callbackEvent {V} (cb : nat * (BatchElementError + V)) : Event :=
  match cb.2 with
  | inl error => ErrorCallback cb.1 error
  | inr _ => SuccessCallback cb.1
  end.

(** The facade after a batch call of [method] that left the plugin in state
    [ps'] and during which the callbacks behind [events] were invoked. *)
Definition afterBatch (method : Method) (ps' : PS) (events : list Event)
    (m : Manager.t PS) : Manager.t PS :=
  Manager.mk
    (mkPtr ps' (trace (Manager.managerInterface_ m) ++ Invoked method :: events))
    (Manager.hostSession_ m)
    (Manager.entityReferencePrefix_ m).

(** How a batch call ends when every callback has returned and left [b]:
    as the plugin's method itself ends. *)
Definition completed {B} (completion : Res unit) (b : B) : Res B :=
  match completion with
  | Ret _ => Ret b
  | Throw e => Throw e
  | Undefined => Undefined
  end.

(** A host whose two callbacks write down what they are called with. *)
Definition recordSuccess {V} : Callback V (list (nat * (BatchElementError + V))) :=
  λ index value seen, Ret (seen ++ [(index, inr value)]).
Definition recordError {V}
    : Callback BatchElementError (list (nat * (BatchElementError + V))) :=
  λ index error seen, Ret (seen ++ [(index, inl error)]).

(** What a recording host sees of a pager callback: the plugin's pager
    wrapped with the host session. *)
Definition wrapPager (hostSession : HostSession)
    (cb : nat * (BatchElementError + EntityReferencePagerInterface))
    : nat * (BatchElementError + EntityReferencePager) :=
  (cb.1, match cb.2 with
         | inl error => inl error
         | inr pagerInterface =>
             inr (mkEntityReferencePager pagerInterface hostSession)
         end).

(** Serialising a context and reading the token back. *)
Definition tokenRoundTrip (impl : ManagerInterface.t PS) (context : Context)
    : M (Manager.t PS) Context :=
  token ← Manager.persistenceTokenForContext impl context;
  Manager.contextFromPersistenceToken impl token.

(** A context is created, a child derived from it, and the child
    serialised. *)
Definition contextLifecycle (impl : ManagerInterface.t PS)
    : M (Manager.t PS) (Context * Context * Str) :=
  context ← Manager.createContext impl;
  child ← Manager.createChildContext impl context;
  token ← Manager.persistenceTokenForContext impl child;
  mret (context, child, token).

(** The host session is left as it was, however the computation ends. *)
Definition keeps_session {A} (c : M (Manager.t PS) A) : Prop :=
  ∀ m, Manager.hostSession_ (c m).2 = Manager.hostSession_ m.
End Vocabulary.

(** ** A second stub: a plugin that says less

    As the stub above, except that its batch answers skip the entity
    references that read ["silent"], that it serialises every manager
    state to the empty token, and that it does not advertise stateful
    contexts. *)

Module QuietStub.
Import Stub.
#[local] Existing Instance Stub.externals.

Definition answers {V} (value : EntityReference → V) (refs : EntityReferences)
    : ManagerInterface.BatchRun V :=
  ManagerInterface.mkBatchRun
    (omap (λ cb, if String.eqb (toString cb.2) "silent"
                 then None
                 else Some (cb.1,
                            if String.eqb (toString cb.2) "missing"
                            then inl kEntityResolutionError
                            else inr (value cb.2)))
          (imap pair refs))
    (Ret tt).

Definition plugin : ManagerInterface.t state := {|
  ManagerInterface.identifier := ManagerInterface.identifier Stub.plugin;
  ManagerInterface.displayName := ManagerInterface.displayName Stub.plugin;
  ManagerInterface.hasCapability := λ c ps,
    (Ret (match c with SC => false | _ => advertises ps c end), ps);
  ManagerInterface.info := ManagerInterface.info Stub.plugin;
  ManagerInterface.updateTerminology := ManagerInterface.updateTerminology Stub.plugin;
  ManagerInterface.settings := ManagerInterface.settings Stub.plugin;
  ManagerInterface.initialize := ManagerInterface.initialize Stub.plugin;
  ManagerInterface.flushCaches := ManagerInterface.flushCaches Stub.plugin;
  ManagerInterface.managementPolicy := ManagerInterface.managementPolicy Stub.plugin;
  ManagerInterface.createState := ManagerInterface.createState Stub.plugin;
  ManagerInterface.createChildState := ManagerInterface.createChildState Stub.plugin;
  ManagerInterface.persistenceTokenForState := λ _ _ ps, (Ret "", ps);
  ManagerInterface.stateFromPersistenceToken :=
    ManagerInterface.stateFromPersistenceToken Stub.plugin;
  ManagerInterface.isEntityReferenceString :=
    ManagerInterface.isEntityReferenceString Stub.plugin;
  ManagerInterface.entityExists := ManagerInterface.entityExists Stub.plugin;
  ManagerInterface.entityTraits := ManagerInterface.entityTraits Stub.plugin;
  ManagerInterface.resolve := λ refs _ _ _ _ ps,
    (answers (λ ref, Some [toString ref]) refs, ps);
  ManagerInterface.defaultEntityReference :=
    ManagerInterface.defaultEntityReference Stub.plugin;
  ManagerInterface.getWithRelationship :=
    ManagerInterface.getWithRelationship Stub.plugin;
  ManagerInterface.getWithRelationships :=
    ManagerInterface.getWithRelationships Stub.plugin;
  ManagerInterface.preflight := ManagerInterface.preflight Stub.plugin;
  ManagerInterface.register_ := ManagerInterface.register_ Stub.plugin;
|}.

Definition silentRef : EntityReference := mkEntityReference "silent".

Definition quietRefs : EntityReferences :=
  [mkEntityReference "stub://a"; silentRef; mkEntityReference "stub://c"].

Definition statefulContext : Context :=
  {| locale := Some []; managerState := Some 7 |}.
End QuietStub.

(** * Properties *)

(** ** Strings *)

Lemma substring_starts_with (t : Str) :
  ∀ s : Str, substring 0 (String.length t) s = t ↔ ∃ rest, s = t +:+ rest.
Proof.
  induction t as [|c t IH]; intros s; simpl.
  - split; [intros _; by exists s | intros _; by destruct s].
  - destruct s as [|c' s]; simpl.
    + split; [discriminate | intros [rest Hrest]; discriminate].
    + split.
      * intros Heq. injection Heq as -> Hsub.
        apply IH in Hsub as [rest ->]. by exists rest.
      * intros [rest Heq]. injection Heq as -> ->.
        f_equal. apply IH. by exists rest.
Qed.

Lemma occurs_at_0 (t s : Str) :
  occurs_at t s 0 = true ↔ ∃ rest, s = t +:+ rest.
Proof.
  unfold occurs_at. rewrite String.eqb_eq. apply substring_starts_with.
Qed.

Lemma length_starts_with (t rest : Str) :
  String.length t ≤ String.length (t +:+ rest).
Proof. induction t; simpl; lia. Qed.

(** [s.rfind(t, 0) != npos] says that [s] starts with [t]. *)
Lemma rfind_0_starts_with (s t : Str) :
  rfind s t 0 ≠ None ↔ ∃ rest, s = t +:+ rest.
Proof.
  unfold rfind. destruct (Nat.ltb_spec (String.length s) (String.length t)) as [Hlt|Hle].
  - split; [done|]. intros [rest ->].
    pose proof (length_starts_with t rest). lia.
  - rewrite Nat.min_0_l. simpl. rewrite <- occurs_at_0.
    destruct (occurs_at t s 0); split; congruence.
Qed.

Lemma rfind_empty (s : Str) : rfind s "" 0 = Some 0.
Proof.
  unfold rfind. simpl. unfold occurs_at. simpl. by destruct s.
Qed.

Section Properties.
Context `{Externals} {PS : Type} (impl : ManagerInterface.t PS).
Import ManagerInterface.

(** ** Reference classification *)

Lemma isEntityReferenceString_cached (s prefix : Str) (m : Manager.t PS) :
  Manager.entityReferencePrefix_ m = Some prefix →
  Manager.isEntityReferenceString impl s m =
    (Ret (bool_decide (rfind s prefix 0 ≠ None)), m).
Proof. intros Hp. unfold Manager.isEntityReferenceString. by rewrite Hp. Qed.

Lemma isEntityReferenceString_delegated (s : Str) (m : Manager.t PS) :
  Manager.entityReferencePrefix_ m = None →
  Manager.isEntityReferenceString impl s m =
    let (r, ps') :=
      isEntityReferenceString impl s (Manager.hostSession_ m)
                              (object (Manager.managerInterface_ m)) in
    (r, Manager.afterCall M_isEntityReferenceString ps' m).
Proof.
  intros Hp. unfold Manager.isEntityReferenceString. rewrite Hp.
  unfold Manager.onInterface, invoke, Manager.afterCall.
  by destruct (isEntityReferenceString impl s _ _).
Qed.

(** C2. With a cached prefix, [isEntityReferenceString s] returns true
    exactly when [s] starts with the prefix and leaves the facade and the
    plugin untouched, so the plugin's classification method is not
    called; with no cached prefix, it returns what the plugin's
    [isEntityReferenceString] returns for [s], after this one call. *)
Theorem isEntityReferenceString_spec (s : Str) (m : Manager.t PS) :
  (∀ prefix, Manager.entityReferencePrefix_ m = Some prefix →
     ∃ b, Manager.isEntityReferenceString impl s m = (Ret b, m) ∧
          (b = true ↔ ∃ rest, s = prefix +:+ rest)) ∧
  (Manager.entityReferencePrefix_ m = None →
     Manager.isEntityReferenceString impl s m =
       let (r, ps') :=
         isEntityReferenceString impl s (Manager.hostSession_ m)
                                 (object (Manager.managerInterface_ m)) in
       (r, Manager.afterCall M_isEntityReferenceString ps' m)).
Proof.
  split.
  - intros prefix Hp. eexists. split.
    + by apply isEntityReferenceString_cached.
    + rewrite bool_decide_eq_true. apply rfind_0_starts_with.
  - apply isEntityReferenceString_delegated.
Qed.

(** C9. An empty string under the prefix key of the info dictionary is
    cached as the prefix, and with the empty prefix cached every string,
    the empty one included, classifies as an entity reference, the
    facade and the plugin being left untouched. *)
Theorem empty_prefix_accepts_everything :
  (∀ (l : LoggerInterface) (i : InfoDictionary),
     i !! kInfoKey_EntityReferencesMatchPrefix = Some (VStr "") →
     (entityReferencePrefixFromInfo l i).1 = Some "") ∧
  (∀ (m : Manager.t PS) (s : Str),
     Manager.entityReferencePrefix_ m = Some "" →
     Manager.isEntityReferenceString impl s m = (Ret true, m)).
Proof.
  split.
  - intros l i Hi. unfold entityReferencePrefixFromInfo. by rewrite Hi.
  - intros m s Hp.
    rewrite (isEntityReferenceString_cached s "" m Hp), rfind_empty.
    by rewrite bool_decide_eq_true_2.
Qed.

(** ** Reference construction *)

(** C6. [createEntityReference s] and [createEntityReferenceIfValid s]
    classify [s] once. Where the classification is false the first
    throws an input validation error whose message ends in [s] and the
    second returns nothing; where it is true both return the reference
    wrapping [s]; an exception from the classification leaves both. So
    the second returns a reference exactly when the first returns, and
    it is the same reference. *)
Theorem createEntityReference_spec (s : Str) (m : Manager.t PS) :
  match Manager.isEntityReferenceString impl s m with
  | (Ret true, m') =>
      Manager.createEntityReference impl s m = (Ret (mkEntityReference s), m') ∧
      Manager.createEntityReferenceIfValid impl s m =
        (Ret (Some (mkEntityReference s)), m')
  | (Ret false, m') =>
      Manager.createEntityReference impl s m =
        (Throw (InputValidationException ("Invalid entity reference: " +:+ s)), m') ∧
      Manager.createEntityReferenceIfValid impl s m = (Ret None, m')
  | (Throw e, m') =>
      Manager.createEntityReference impl s m = (Throw e, m') ∧
      Manager.createEntityReferenceIfValid impl s m = (Throw e, m')
  | (Undefined, m') =>
      Manager.createEntityReference impl s m = (Undefined, m') ∧
      Manager.createEntityReferenceIfValid impl s m = (Undefined, m')
  end ∧
  ∀ ref : EntityReference,
    (Manager.createEntityReferenceIfValid impl s m).1 = Ret (Some ref) ↔
    (Manager.createEntityReference impl s m).1 = Ret ref ∧ toString ref = s.
Proof.
  unfold Manager.createEntityReference, Manager.createEntityReferenceIfValid.
  unfold mbind, M_bind, bind, mret, M_ret, ret, throw.
  destruct (Manager.isEntityReferenceString impl s m) as [[[|]| |] m']; simpl.
  - split; [done|]. intros ref. split.
    + intros [= <-]. done.
    + intros [[= <-] _]. done.
  - split; [done|]. intros ref. split; [done | by intros [? _]].
  - split; [done|]. intros ref. split; [done | by intros [? _]].
  - split; [done|]. intros ref. split; [done | by intros [? _]].
Qed.

(** ** Persistence tokens *)

(** C7. For a context without manager state,
    [persistenceTokenForContext] returns the empty string and leaves the
    facade and the plugin untouched; [contextFromPersistenceToken ""]
    returns a fresh context without manager state, again touching
    nothing; a non-empty token is handed to the plugin's
    [stateFromPersistenceToken], whose answer becomes the manager state
    of the context. *)
Theorem persistence_token_spec :
  (∀ (context : Context) (m : Manager.t PS),
     managerState context = None →
     Manager.persistenceTokenForContext impl context m = (Ret "", m)) ∧
  (∀ m : Manager.t PS,
     ∃ context,
       Manager.contextFromPersistenceToken impl "" m = (Ret context, m) ∧
       managerState context = None) ∧
  (∀ (token : Str) (m : Manager.t PS),
     token ≠ "" →
     Manager.contextFromPersistenceToken impl token m =
       let (r, ps') :=
         stateFromPersistenceToken impl token (Manager.hostSession_ m)
                                   (object (Manager.managerInterface_ m)) in
       (match r with
        | Ret state => Ret {| locale := None; managerState := state |}
        | Throw e => Throw e
        | Undefined => Undefined
        end, Manager.afterCall M_stateFromPersistenceToken ps' m)).
Proof.
  split; [|split].
  - intros context m Hstate. unfold Manager.persistenceTokenForContext.
    by rewrite Hstate.
  - intros m. by exists (Context_make None).
  - intros token m Hne. unfold Manager.contextFromPersistenceToken.
    apply String.eqb_neq in Hne. rewrite Hne. simpl.
    unfold mbind, M_bind, bind, Manager.onInterface, invoke, Manager.afterCall.
    by destruct (stateFromPersistenceToken impl token _ _) as [[| |] ps'].
Qed.

(** ** Shape checks of the batch operations *)

(** C3. [preflight] and [register_], in the callback shape and in the two
    plural shapes derived from it, throw an input validation error
    naming both lengths when the two input lists differ in length, and
    [getWithRelationship] and [getWithRelationships] throw one when the
    page size is zero. In each case the facade and the plugin are left
    exactly as they were: no plugin method has been called. *)
Theorem shape_violations_rejected (m : Manager.t PS) :
  (∀ (refs : EntityReferences) (datas : TraitsDatas) (a : PublishingAccess)
     (c : Context),
     length refs ≠ length datas →
     let hintsError :=
       InputValidationException
         (((("Parameter lists must be of the same length: "
             +:+ to_string (length refs)) +:+ " entity references vs. ")
             +:+ to_string (length datas)) +:+ " traits hints.") in
     let datasError :=
       InputValidationException
         (((("Parameter lists must be of the same length: "
             +:+ to_string (length refs)) +:+ " entity references vs. ")
             +:+ to_string (length datas)) +:+ " traits datas.") in
     (∀ R (sc : Callback EntityReference R) (ec : Callback BatchElementError R) r,
        Manager.preflight impl refs datas a c sc ec r m = (Throw hintsError, m) ∧
        Manager.register_ impl refs datas a c sc ec r m = (Throw datasError, m)) ∧
     Manager.preflight_multi_except impl refs datas a c m = (Throw hintsError, m) ∧
     Manager.preflight_multi_variant impl refs datas a c m = (Throw hintsError, m) ∧
     Manager.register_multi_except impl refs datas a c m = (Throw datasError, m) ∧
     Manager.register_multi_variant impl refs datas a c m = (Throw datasError, m)) ∧
  (∀ R (refs : EntityReferences) (ref : EntityReference) (rel : TraitsDataPtr)
     (rels : TraitsDatas) (a : RelationsAccess) (c : Context)
     (sc : Callback EntityReferencePager R) (ec : Callback BatchElementError R)
     (resultTraitSet : TraitSet) r,
     let pageSizeError :=
       InputValidationException "pageSize must be greater than zero." in
     Manager.getWithRelationship impl refs rel 0 a c sc ec resultTraitSet r m =
       (Throw pageSizeError, m) ∧
     Manager.getWithRelationships impl ref rels 0 a c sc ec resultTraitSet r m =
       (Throw pageSizeError, m)).
Proof.
  split.
  - intros refs datas a c Hne hintsError datasError.
    assert (Hp : ∀ R sc ec (r : R),
               Manager.preflight impl refs datas a c sc ec r m =
                 (Throw hintsError, m)).
    { intros. unfold Manager.preflight.
      apply Nat.eqb_neq in Hne. by rewrite Hne. }
    assert (Hr : ∀ R sc ec (r : R),
               Manager.register_ impl refs datas a c sc ec r m =
                 (Throw datasError, m)).
    { intros. unfold Manager.register_.
      apply Nat.eqb_neq in Hne. by rewrite Hne. }
    repeat split; [apply Hp | apply Hr | apply Hp | apply Hp | apply Hr | apply Hr].
  - intros. split; reflexivity.
Qed.

(** ** Initialisation *)

(** [initialize], step by step. *)
Lemma initialize_unfold (managerSettings : InfoDictionary) (m : Manager.t PS) :
  Manager.initialize impl managerSettings m =
    let hs := Manager.hostSession_ m in
    let cached := Manager.entityReferencePrefix_ m in
    let (r1, ps1) :=
      initialize impl managerSettings hs (object (Manager.managerInterface_ m)) in
    let p1 := mkPtr ps1 (trace (Manager.managerInterface_ m) ++ [Invoked M_initialize]) in
    match r1 with
    | Ret _ =>
        let (r2, p2) := verifyRequiredCapabilities impl p1 in
        match r2 with
        | Ret _ =>
            let (r3, ps3) := info impl (object p2) in
            let p3 := mkPtr ps3 (trace p2 ++ [Invoked M_info]) in
            match r3 with
            | Ret i =>
                let (prefix, logger') := entityReferencePrefixFromInfo (logger hs) i in
                (Ret tt, Manager.mk p3 (mkHostSession logger') prefix)
            | Throw e => (Throw e, Manager.mk p3 hs cached)
            | Undefined => (Undefined, Manager.mk p3 hs cached)
            end
        | Throw e => (Throw e, Manager.mk p2 hs cached)
        | Undefined => (Undefined, Manager.mk p2 hs cached)
        end
    | Throw e => (Throw e, Manager.mk p1 hs cached)
    | Undefined => (Undefined, Manager.mk p1 hs cached)
    end.
Proof.
  unfold Manager.initialize, mbind, M_bind, bind, Manager.onInterface, invoke.
  simpl.
  destruct (initialize impl managerSettings _ _) as [[[]| |] ps1]; simpl; try done.
  destruct (verifyRequiredCapabilities impl _) as [[[]| |] p2]; simpl; try done.
  by destruct (info impl (object p2)) as [[i| |] ps3].
Qed.

(** The names of the required capabilities the plugin has denied. *)
Lemma verifyRequiredCapabilities_answers (p : Ptr PS) (b1 b2 b3 : bool)
    (ps1 ps2 ps3 : PS) :
  hasCapability impl kEntityReferenceIdentification (object p) = (Ret b1, ps1) →
  hasCapability impl kManagementPolicyQueries ps1 = (Ret b2, ps2) →
  hasCapability impl kEntityTraitIntrospection ps2 = (Ret b3, ps3) →
  let missing :=
    (if b1 then [] else [kCapabilityNames kEntityReferenceIdentification]) ++
    (if b2 then [] else [kCapabilityNames kManagementPolicyQueries]) ++
    (if b3 then [] else [kCapabilityNames kEntityTraitIntrospection]) in
  let queried :=
    trace p ++ [Invoked M_hasCapability; Invoked M_hasCapability;
                Invoked M_hasCapability] in
  verifyRequiredCapabilities impl p =
    match missing with
    | [] => (Ret tt, mkPtr ps3 queried)
    | _ =>
        (Throw (ConfigurationException
                  ("Manager implementation for '" +:+ identifier impl ps3 +:+
                   "' does not support the required capabilities: " +:+
                   join missing ", ")),
         mkPtr ps3 (queried ++ [Invoked M_identifier]))
    end.
Proof.
  intros H1 H2 H3.
  unfold verifyRequiredCapabilities, kRequiredCapabilities. simpl.
  unfold mbind, M_bind, bind, invoke, invoke_const, mret, M_ret, ret, throw. simpl.
  rewrite H1. simpl. rewrite H2. simpl. rewrite H3. simpl.
  rewrite <- !app_assoc. simpl.
  destruct b1, b2, b3; simpl; try done; by rewrite <- app_assoc.
Qed.

(** C4. After the plugin's own [initialize] has returned, the three
    required capabilities are queried in their fixed order. If the
    plugin denies none, the verification returns; otherwise [initialize]
    throws a configuration error whose message holds the plugin's
    identifier and the names of all denied capabilities, in that order,
    separated by [", "]. *)
Theorem required_capabilities_enforced
    (managerSettings : InfoDictionary) (m : Manager.t PS)
    (b1 b2 b3 : bool) (ps0 ps1 ps2 ps3 : PS) :
  initialize impl managerSettings (Manager.hostSession_ m)
             (object (Manager.managerInterface_ m)) = (Ret tt, ps0) →
  hasCapability impl kEntityReferenceIdentification ps0 = (Ret b1, ps1) →
  hasCapability impl kManagementPolicyQueries ps1 = (Ret b2, ps2) →
  hasCapability impl kEntityTraitIntrospection ps2 = (Ret b3, ps3) →
  let missing :=
    (if b1 then [] else [kCapabilityNames kEntityReferenceIdentification]) ++
    (if b2 then [] else [kCapabilityNames kManagementPolicyQueries]) ++
    (if b3 then [] else [kCapabilityNames kEntityTraitIntrospection]) in
  let initialized :=
    mkPtr ps0 (trace (Manager.managerInterface_ m) ++ [Invoked M_initialize]) in
  (missing = [] → (verifyRequiredCapabilities impl initialized).1 = Ret tt) ∧
  (missing ≠ [] →
     (Manager.initialize impl managerSettings m).1 =
       Throw (ConfigurationException
                ("Manager implementation for '" +:+ identifier impl ps3 +:+
                 "' does not support the required capabilities: " +:+
                 join missing ", "))).
Proof.
  intros Hinit H1 H2 H3 missing initialized.
  pose proof (verifyRequiredCapabilities_answers initialized b1 b2 b3
                ps1 ps2 ps3 H1 H2 H3) as Hverify.
  fold missing in Hverify. split.
  - intros Hnone. rewrite Hverify, Hnone. done.
  - intros Hsome. rewrite initialize_unfold. simpl. rewrite Hinit.
    fold initialized. rewrite Hverify.
    destruct missing; [done|]. done.
Qed.

(** What a call of [initialize] that does not return leaves of the
    cache. *)
Lemma initialize_failure (managerSettings : InfoDictionary) (m : Manager.t PS) :
  (Manager.initialize impl managerSettings m).1 ≠ Ret tt →
  Manager.entityReferencePrefix_ (Manager.initialize impl managerSettings m).2 =
    Manager.entityReferencePrefix_ m.
Proof.
  rewrite initialize_unfold. simpl.
  destruct (initialize impl managerSettings _ _) as [[[]| |] ps1]; simpl; try done.
  destruct (verifyRequiredCapabilities impl _) as [[[]| |] p2]; simpl; try done.
  destruct (info impl (object p2)) as [[i| |] ps3]; simpl; try done.
  by destruct (entityReferencePrefixFromInfo _ i).
Qed.

(** C10. Whatever [initialize] does to the cached prefix, it does after
    the plugin's [initialize] and the capability verification have both
    returned: if the plugin's [initialize] does not return, or it does
    and the verification does not, the call ends the same way with the
    cached prefix as it was before; and so does every call of
    [initialize] that does not return. *)
Theorem initialize_failure_keeps_prefix
    (managerSettings : InfoDictionary) (m : Manager.t PS)
    (r1 : Res unit) (ps1 : PS) (r2 : Res unit) (p2 : Ptr PS) :
  let hs := Manager.hostSession_ m in
  let p1 := mkPtr ps1 (trace (Manager.managerInterface_ m) ++ [Invoked M_initialize]) in
  initialize impl managerSettings hs (object (Manager.managerInterface_ m)) = (r1, ps1) →
  verifyRequiredCapabilities impl p1 = (r2, p2) →
  (r1 ≠ Ret tt →
     Manager.initialize impl managerSettings m =
       (r1, Manager.mk p1 hs (Manager.entityReferencePrefix_ m))) ∧
  (r1 = Ret tt → r2 ≠ Ret tt →
     Manager.initialize impl managerSettings m =
       (r2, Manager.mk p2 hs (Manager.entityReferencePrefix_ m))) ∧
  ((Manager.initialize impl managerSettings m).1 ≠ Ret tt →
     Manager.entityReferencePrefix_ (Manager.initialize impl managerSettings m).2 =
       Manager.entityReferencePrefix_ m) ∧
  (Manager.entityReferencePrefix_ (Manager.initialize impl managerSettings m).2 ≠
     Manager.entityReferencePrefix_ m →
     r1 = Ret tt ∧ r2 = Ret tt).
Proof.
  intros hs p1 Hinit Hverify.
  assert (Hfirst : r1 ≠ Ret tt →
            Manager.initialize impl managerSettings m =
              (r1, Manager.mk p1 hs (Manager.entityReferencePrefix_ m))).
  { intros Hr1. rewrite initialize_unfold. simpl. fold hs. rewrite Hinit.
    by destruct r1 as [[]| |]. }
  assert (Hsecond : r1 = Ret tt → r2 ≠ Ret tt →
            Manager.initialize impl managerSettings m =
              (r2, Manager.mk p2 hs (Manager.entityReferencePrefix_ m))).
  { intros -> Hr2. rewrite initialize_unfold. simpl. fold hs. rewrite Hinit.
    fold p1. rewrite Hverify. by destruct r2 as [[]| |]. }
  split; [done|]. split; [done|]. split; [apply initialize_failure|].
  intros Hchanged.
  destruct r1 as [[]| |]; [|exfalso; apply Hchanged; by rewrite Hfirst..].
  destruct r2 as [[]| |]; [done|exfalso; apply Hchanged; by rewrite Hsecond..].
Qed.

(** ** Who writes the cached prefix *)

Lemma keeps_ret {A} (a : A) : Manager.keeps_prefix (PS := PS) (ret a).
Proof. by intros m. Qed.

Lemma keeps_throw {A} (e : Exception) :
  Manager.keeps_prefix (PS := PS) (A := A) (throw e).
Proof. by intros m. Qed.

Lemma keeps_bind {A B} (c : M (Manager.t PS) A) (k : A → M (Manager.t PS) B) :
  Manager.keeps_prefix c → (∀ a, Manager.keeps_prefix (k a)) →
  Manager.keeps_prefix (bind c k).
Proof.
  intros Hc Hk m. unfold bind. specialize (Hc m).
  destruct (c m) as [[a| |] m']; simpl in *; try done.
  by rewrite Hk.
Qed.

Lemma keeps_onInterface {A} (c : HostSession → M (Ptr PS) A) :
  Manager.keeps_prefix (Manager.onInterface c).
Proof.
  intros m. unfold Manager.onInterface.
  by destruct (c (Manager.hostSession_ m) (Manager.managerInterface_ m)).
Qed.

Lemma keeps_if {A} (b : bool) (c1 c2 : M (Manager.t PS) A) :
  Manager.keeps_prefix c1 → Manager.keeps_prefix c2 →
  Manager.keeps_prefix (if b then c1 else c2).
Proof. by destruct b. Qed.

Create HintDb keeps.
#[local] Hint Resolve keeps_onInterface keeps_if : keeps.
#[local] Hint Extern 1 (Manager.keeps_prefix (mret _)) => apply keeps_ret : keeps.
#[local] Hint Extern 1 (Manager.keeps_prefix (ret _)) => apply keeps_ret : keeps.
#[local] Hint Extern 1 (Manager.keeps_prefix (throw _)) => apply keeps_throw : keeps.
#[local] Hint Extern 2 (Manager.keeps_prefix (mbind _ _)) =>
  apply keeps_bind; [|intros ?] : keeps.

Ltac keeps := auto 10 with keeps.

Ltac head_of c :=
  lazymatch c with
  | ?f _ => head_of f
  | _ => c
  end.

Lemma keeps_isEntityReferenceString (s : Str) :
  Manager.keeps_prefix (Manager.isEntityReferenceString impl s).
Proof.
  intros m. unfold Manager.isEntityReferenceString.
  destruct (Manager.entityReferencePrefix_ m) eqn:Hp; [done|].
  etrans; [apply keeps_onInterface | done].
Qed.

Lemma keeps_preflight {R} refs hints a c sc ec (r : R) :
  Manager.keeps_prefix (Manager.preflight impl refs hints a c sc ec r).
Proof. unfold Manager.preflight. keeps. Qed.

Lemma keeps_register_ {R} refs datas a c sc ec (r : R) :
  Manager.keeps_prefix (Manager.register_ impl refs datas a c sc ec r).
Proof. unfold Manager.register_. keeps. Qed.

Lemma keeps_resolve {R} refs ts a c sc ec (r : R) :
  Manager.keeps_prefix (Manager.resolve impl refs ts a c sc ec r).
Proof. unfold Manager.resolve. keeps. Qed.

Lemma keeps_hasCapability (capability : Capability) :
  Manager.keeps_prefix (Manager.hasCapability impl capability).
Proof. unfold Manager.hasCapability. keeps. Qed.

#[local] Hint Resolve keeps_isEntityReferenceString keeps_preflight keeps_register_
  keeps_resolve keeps_hasCapability : keeps.

(** Every operation but [initialize] leaves the cached prefix alone. *)
Lemma perform_keeps_prefix (op : Manager.Operation) (m : Manager.t PS) :
  Manager.is_initialize op = false →
  Manager.entityReferencePrefix_ (Manager.perform impl op m) =
    Manager.entityReferencePrefix_ m.
Proof.
  destruct op; simpl; try done; intros _.
  all: match goal with
       | |- Manager.entityReferencePrefix_ (?c _).2 = _ =>
           enough (Hk : Manager.keeps_prefix c) by apply Hk
       end.
  all: try (by keeps).
  all: match goal with
       | |- Manager.keeps_prefix ?c =>
           let h := head_of c in unfold h
       end; try destruct (managerState _); keeps.
Qed.

Lemma performAll_keeps_prefix (ops : list Manager.Operation) :
  ∀ m : Manager.t PS,
    forallb (λ op, negb (Manager.is_initialize op)) ops = true →
    Manager.entityReferencePrefix_ (Manager.performAll impl ops m) =
      Manager.entityReferencePrefix_ m.
Proof.
  unfold Manager.performAll.
  induction ops as [|op ops IH]; intros m Hops; simpl in *; [done|].
  apply andb_prop in Hops as [Hop Hops].
  rewrite IH by done. apply perform_keeps_prefix.
  by apply negb_true_iff.
Qed.

(** C8, as the code has it. Only [initialize] writes the cached prefix:
    a sequence of other operations leaves it as it was, and so does a
    call of [initialize] that does not return; a call of [initialize]
    that returns sets it anew, to what [entityReferencePrefixFromInfo]
    finds in the info dictionary the plugin reports during that call,
    whether or not a prefix was cached before. *)
Theorem prefix_written_only_by_initialize (m : Manager.t PS) :
  (∀ ops : list Manager.Operation,
     forallb (λ op, negb (Manager.is_initialize op)) ops = true →
     Manager.entityReferencePrefix_ (Manager.performAll impl ops m) =
       Manager.entityReferencePrefix_ m) ∧
  (∀ managerSettings : InfoDictionary,
     (Manager.initialize impl managerSettings m).1 ≠ Ret tt →
     Manager.entityReferencePrefix_
       (Manager.perform impl (Manager.Op_initialize managerSettings) m) =
       Manager.entityReferencePrefix_ m) ∧
  (∀ managerSettings : InfoDictionary,
     (Manager.initialize impl managerSettings m).1 = Ret tt →
     ∃ ps1 p2 i ps3,
       initialize impl managerSettings (Manager.hostSession_ m)
                  (object (Manager.managerInterface_ m)) = (Ret tt, ps1) ∧
       verifyRequiredCapabilities impl
         (mkPtr ps1 (trace (Manager.managerInterface_ m) ++ [Invoked M_initialize])) =
         (Ret tt, p2) ∧
       info impl (object p2) = (Ret i, ps3) ∧
       Manager.entityReferencePrefix_
         (Manager.perform impl (Manager.Op_initialize managerSettings) m) =
         (entityReferencePrefixFromInfo (logger (Manager.hostSession_ m)) i).1).
Proof.
  split; [|split].
  - intros ops. apply performAll_keeps_prefix.
  - intros managerSettings. apply initialize_failure.
  - intros managerSettings. simpl. rewrite initialize_unfold. simpl.
    destruct (initialize impl managerSettings _ _)
      as [[[]| |] ps1] eqn:Hinit; simpl; try done.
    destruct (verifyRequiredCapabilities impl _)
      as [[[]| |] p2] eqn:Hverify; simpl; try done.
    destruct (info impl (object p2)) as [[i| |] ps3] eqn:Hinfo; simpl; try done.
    intros _. exists ps1, p2, i, ps3. repeat split; try done.
    by destruct (entityReferencePrefixFromInfo (logger _) i).
Qed.

(** ** The aggregation closures of the plural shapes *)


Section FailFast.
Context {V : Type} (refs : EntityReferences) (a : Access).


End FailFast.


(** The two closures of a plural, variant shape write each outcome to its
    index; over a run that names no index twice and none out of range
    they fill exactly the positions named and touch no other. *)
Lemma deliver_collect {V} (cbs : list (nat * (BatchElementError + V))) :
  ∀ (r : list (Variant V)) tr,
    Forall (λ cb, cb.1 < length r) cbs → NoDup cbs.*1 →
    ∃ r' tr',
      deliver (λ index value res, assign res index (VValue value))
              (λ index error res, assign res index (VError error))
              cbs r tr = (Ret r', tr') ∧
      length r' = length r ∧
      (∀ i outcome, (i, outcome) ∈ cbs → r' !! i = Some (Manager.variantOf outcome)) ∧
      (∀ j, j ∉ cbs.*1 → r' !! j = r !! j).
Proof.
  induction cbs as [|[index outcome] rest IH]; intros r tr Hrange Hnodup.
  - exists r, tr. split; [done|]. split; [done|]. split; [|done].
    intros i outcome Hin. by apply elem_of_nil in Hin.
  - apply Forall_cons in Hrange as [Hlt Hrange]. simpl in Hlt.
    rewrite fmap_cons in Hnodup. apply NoDup_cons in Hnodup as [Hfresh Hnodup].
    set (r1 := <[index := Manager.variantOf outcome]> r).
    assert (Hlen1 : length r1 = length r) by apply length_insert.
    destruct (IH r1 (tr ++ [match outcome with
                            | inl error => ErrorCallback index error
                            | inr _ => SuccessCallback index
                            end]))
      as (r' & tr' & Hrun & Hlen & Hset & Hkeep).
    { by rewrite Hlen1. }
    { done. }
    exists r', tr'. split; [|split; [|split]].
    + destruct outcome as [error|value]; simpl; unfold assign;
        by rewrite decide_True.
    + by rewrite Hlen.
    + intros i x Hin. apply elem_of_cons in Hin as [[= -> ->]|Hin].
      * rewrite (Hkeep index Hfresh). by apply list_lookup_insert_eq.
      * by apply Hset.
    + intros j Hj. rewrite fmap_cons in Hj. apply not_elem_of_cons in Hj as [Hne Hj].
      rewrite (Hkeep j Hj). by apply list_lookup_insert_ne.
Qed.

Lemma onInterface_collect {V} (method : Method)
    (f : HostSession → PS → BatchRun V * PS) (n : nat)
    (m : Manager.t PS) (run : BatchRun V) (ps' : PS) :
  f (Manager.hostSession_ m) (object (Manager.managerInterface_ m)) = (run, ps') →
  Manager.oneCallbackPerIndex n run →
  completion run = Ret tt →
  ∃ vs m',
    Manager.onInterface
      (λ hs, invokeBatch method (f hs)
               (λ index value res, assign res index (VValue value))
               (λ index error res, assign res index (VError error))
               (replicate n (VError BatchElementError_default))) m = (Ret vs, m') ∧
    length vs = n ∧
    ∀ i outcome, (i, outcome) ∈ callbacks run → vs !! i = Some (Manager.variantOf outcome).
Proof.
  intros Hf Hper Hdone. unfold Manager.oneCallbackPerIndex in Hper.
  unfold Manager.onInterface, invokeBatch. rewrite Hf.
  destruct (deliver_collect (callbacks run)
              (replicate n (VError BatchElementError_default))
              (trace (Manager.managerInterface_ m) ++ [Invoked method]))
    as (vs & tr' & Hrun & Hlen & Hset & _).
  - rewrite length_replicate. apply Forall_forall. intros [i outcome] Hin. simpl.
    assert (Hi : i ∈ (callbacks run).*1)
      by (apply list_elem_of_fmap; by exists (i, outcome)).
    rewrite Hper in Hi. apply elem_of_seq in Hi. lia.
  - rewrite Hper. apply NoDup_seq.
  - rewrite Hrun, Hdone. eexists _, _. split; [done|]. split; [|done].
    by rewrite Hlen, length_replicate.
Qed.

(** C5, as the code has it. In the plural, variant shapes of [resolve],
    [preflight] and [register_]: when the plugin answers the call with exactly one
    callback per index of the input and then returns, the call returns a
    list as long as the input whose position [i] holds the success value
    or the error the plugin has reported for [i]. For [preflight] and
    [register_] the plugin is reached only with lists of equal length. *)
Theorem plural_variant_collects (m : Manager.t PS) (refs : EntityReferences)
    (c : Context) :
  (∀ (ts : TraitSet) (a : ResolveAccess) run ps',
     resolve impl refs ts a c (Manager.hostSession_ m)
             (object (Manager.managerInterface_ m)) = (run, ps') →
     Manager.oneCallbackPerIndex (length refs) run →
     completion run = Ret tt →
     ∃ vs m',
       Manager.resolve_multi_variant impl refs ts a c m = (Ret vs, m') ∧
       length vs = length refs ∧
       ∀ i outcome, (i, outcome) ∈ callbacks run →
                    vs !! i = Some (Manager.variantOf outcome)) ∧
  (∀ (hints : TraitsDatas) (a : PublishingAccess) run ps',
     length refs = length hints →
     preflight impl refs hints a c (Manager.hostSession_ m)
               (object (Manager.managerInterface_ m)) = (run, ps') →
     Manager.oneCallbackPerIndex (length refs) run →
     completion run = Ret tt →
     ∃ vs m',
       Manager.preflight_multi_variant impl refs hints a c m = (Ret vs, m') ∧
       length vs = length refs ∧
       ∀ i outcome, (i, outcome) ∈ callbacks run →
                    vs !! i = Some (Manager.variantOf outcome)) ∧
  (∀ (datas : TraitsDatas) (a : PublishingAccess) run ps',
     length refs = length datas →
     register_ impl refs datas a c (Manager.hostSession_ m)
               (object (Manager.managerInterface_ m)) = (run, ps') →
     Manager.oneCallbackPerIndex (length refs) run →
     completion run = Ret tt →
     ∃ vs m',
       Manager.register_multi_variant impl refs datas a c m = (Ret vs, m') ∧
       length vs = length refs ∧
       ∀ i outcome, (i, outcome) ∈ callbacks run →
                    vs !! i = Some (Manager.variantOf outcome)).
Proof.
  split; [|split].
  - intros ts a run ps' Hrun Hper Hdone.
    unfold Manager.resolve_multi_variant, Manager.resolve.
    by apply (onInterface_collect M_resolve (λ hs, resolve impl refs ts a c hs)
                (length refs) m run ps').
  - intros hints a run ps' Hlen Hrun Hper Hdone.
    unfold Manager.preflight_multi_variant, Manager.preflight.
    rewrite <- Hlen, Nat.eqb_refl. simpl.
    by apply (onInterface_collect M_preflight
                (λ hs, preflight impl refs hints a c hs) (length refs) m run ps').
  - intros datas a run ps' Hlen Hrun Hper Hdone.
    unfold Manager.register_multi_variant, Manager.register_.
    rewrite <- Hlen, Nat.eqb_refl. simpl.
    by apply (onInterface_collect M_register_
                (λ hs, register_ impl refs datas a c hs) (length refs) m run ps').
Qed.
End Properties.

(** * Properties of the remaining operations *)

Section MoreProperties.
Context `{Externals} {PS : Type} (impl : ManagerInterface.t PS).
Import ManagerInterface.

(** ** Runs in two parts *)

Lemma deliver_app {V R} (sc : Callback V R) (ec : Callback BatchElementError R)
    (cbs1 cbs2 : list (nat * (BatchElementError + V))) :
  ∀ r tr,
    deliver sc ec (cbs1 ++ cbs2) r tr =
      match deliver sc ec cbs1 r tr with
      | (Ret r', tr') => deliver sc ec cbs2 r' tr'
      | other => other
      end.
Proof.
  induction cbs1 as [|[index [error|value]] rest IH]; intros r tr; simpl; [done|..].
  - destruct (ec index error r); simpl; by rewrite ?IH.
  - destruct (sc index value r); simpl; by rewrite ?IH.
Qed.

Lemma deliver_cons_success {V R} (sc : Callback V R)
    (ec : Callback BatchElementError R) (index : nat) (value : V)
    (rest : list (nat * (BatchElementError + V))) (r : R) (tr : list Event) :
  deliver sc ec ((index, inr value) :: rest) r tr =
    match sc index value r with
    | Ret r' => deliver sc ec rest r' (tr ++ [SuccessCallback index])
    | Throw e => (Throw e, tr ++ [SuccessCallback index])
    | Undefined => (Undefined, tr ++ [SuccessCallback index])
    end.
Proof. reflexivity. Qed.

(** ** The singular shapes *)

(** Success callbacks that overwrite the captured result: the last one
    wins, whatever index it names. *)
Lemma deliver_overwrite_successes {V R} (wrap : V → R)
    (ec : Callback BatchElementError R) (vals : list (nat * V)) :
  ∀ r tr,
    deliver (λ _ value _, Ret (wrap value)) ec (successes vals) r tr =
      (Ret (from_option (λ iv, wrap iv.2) r (last vals)),
       tr ++ (SuccessCallback <$> vals.*1)).
Proof.
  induction vals as [|[index value] rest IH]; intros r tr; simpl.
  - by rewrite app_nil_r.
  - unfold successes in IH. rewrite IH, <- app_assoc. simpl. f_equal. f_equal.
    destruct rest as [|next rest]; [done|].
    change (last ((index, value) :: next :: rest)) with (last (next :: rest)).
    by destruct (proj2 (last_is_Some (next :: rest)) ltac:(done)) as [iv ->].
Qed.

Lemma onInterface_singular_throw {V} (method : Method)
    (f : HostSession → PS → BatchRun V * PS)
    (entityReference : EntityReference) (a : Access) (result : V)
    (m : Manager.t PS) (run : BatchRun V) (ps' : PS) :
  let call :=
    Manager.onInterface
      (λ hs, invokeBatch method (f hs)
               (λ _ value _, Ret value)
               (λ index error _,
                  Throw (BatchElementException index error
                           (createBatchElementExceptionMessage error index
                              entityReference a)))
               result) m in
  f (Manager.hostSession_ m) (object (Manager.managerInterface_ m)) = (run, ps') →
  (∀ vals,
     callbacks run = successes vals →
     call = (completed (completion run) (from_option snd result (last vals)),
             afterBatch method ps' (SuccessCallback <$> vals.*1) m)) ∧
  (∀ vals i e post,
     callbacks run = successes vals ++ (i, inl e) :: post →
     call = (Throw (BatchElementException i e
                      (createBatchElementExceptionMessage e i entityReference a)),
             afterBatch method ps'
               ((SuccessCallback <$> vals.*1) ++ [ErrorCallback i e]) m)).
Proof.
  intros call Hf. subst call. unfold Manager.onInterface, invokeBatch, afterBatch.
  rewrite Hf. split.
  - intros vals ->.
    rewrite (deliver_overwrite_successes (λ v, v)). simpl.
    rewrite <- app_assoc. simpl. by destruct (completion run) as [[]| |].
  - intros vals i e post ->.
    rewrite deliver_app, (deliver_overwrite_successes (λ v, v)). simpl.
    by rewrite <- !app_assoc.
Qed.

(** X1. The singular, exception-throwing shapes of [resolve], [preflight]
    and [register_] hand the plugin a one-element batch. While the plugin
    reports successes, the result is overwritten, so the call returns the
    value of the last success callback, whatever indices were named, or
    the initial value (a null pointer, the empty reference) when the
    plugin invokes no callback at all. The first error callback throws
    the batch element exception with the index the plugin named and a
    message rendered for the entity reference of the call; no callback
    after it is invoked. *)
Theorem singular_throw_spec (entityReference : EntityReference) (c : Context)
    (m : Manager.t PS) :
  let hs := Manager.hostSession_ m in
  let ps := object (Manager.managerInterface_ m) in
  (∀ (ts : TraitSet) (a : ResolveAccess) run ps',
     resolve impl [entityReference] ts a c hs ps = (run, ps') →
     let call := Manager.resolve_singular_except impl entityReference ts a c m in
     (∀ vals,
        callbacks run = successes vals →
        call = (completed (completion run) (from_option snd None (last vals)),
                afterBatch M_resolve ps' (SuccessCallback <$> vals.*1) m)) ∧
     (∀ vals i e post,
        callbacks run = successes vals ++ (i, inl e) :: post →
        call = (Throw (BatchElementException i e
                         (createBatchElementExceptionMessage e i entityReference
                            (resolveAccess_cast a))),
                afterBatch M_resolve ps'
                  ((SuccessCallback <$> vals.*1) ++ [ErrorCallback i e]) m))) ∧
  (∀ (hint : TraitsDataPtr) (a : PublishingAccess) run ps',
     preflight impl [entityReference] [hint] a c hs ps = (run, ps') →
     let call := Manager.preflight_singular_except impl entityReference hint a c m in
     (∀ vals,
        callbacks run = successes vals →
        call = (completed (completion run)
                  (from_option snd (mkEntityReference "") (last vals)),
                afterBatch M_preflight ps' (SuccessCallback <$> vals.*1) m)) ∧
     (∀ vals i e post,
        callbacks run = successes vals ++ (i, inl e) :: post →
        call = (Throw (BatchElementException i e
                         (createBatchElementExceptionMessage e i entityReference
                            (publishingAccess_cast a))),
                afterBatch M_preflight ps'
                  ((SuccessCallback <$> vals.*1) ++ [ErrorCallback i e]) m))) ∧
  (∀ (data : TraitsDataPtr) (a : PublishingAccess) run ps',
     register_ impl [entityReference] [data] a c hs ps = (run, ps') →
     let call := Manager.register_singular_except impl entityReference data a c m in
     (∀ vals,
        callbacks run = successes vals →
        call = (completed (completion run)
                  (from_option snd (mkEntityReference "") (last vals)),
                afterBatch M_register_ ps' (SuccessCallback <$> vals.*1) m)) ∧
     (∀ vals i e post,
        callbacks run = successes vals ++ (i, inl e) :: post →
        call = (Throw (BatchElementException i e
                         (createBatchElementExceptionMessage e i entityReference
                            (publishingAccess_cast a))),
                afterBatch M_register_ ps'
                  ((SuccessCallback <$> vals.*1) ++ [ErrorCallback i e]) m))).
Proof.
  intros hs ps. split; [|split].
  - intros ts a run ps' Hrun.
    exact (onInterface_singular_throw M_resolve
             (λ hs, resolve impl [entityReference] ts a c hs)
             entityReference (resolveAccess_cast a) None m run ps' Hrun).
  - intros hint a run ps' Hrun.
    exact (onInterface_singular_throw M_preflight
             (λ hs, preflight impl [entityReference] [hint] a c hs)
             entityReference (publishingAccess_cast a) (mkEntityReference "")
             m run ps' Hrun).
  - intros data a run ps' Hrun.
    exact (onInterface_singular_throw M_register_
             (λ hs, register_ impl [entityReference] [data] a c hs)
             entityReference (publishingAccess_cast a) (mkEntityReference "")
             m run ps' Hrun).
Qed.

(** Callbacks that overwrite the captured variant: the last one wins. *)
Lemma deliver_overwrite_variant {V} (cbs : list (nat * (BatchElementError + V))) :
  ∀ (r : Variant V) tr,
    deliver (λ _ value _, Ret (VValue value)) (λ _ error _, Ret (VError error))
            cbs r tr =
      (Ret (from_option (λ cb, Manager.variantOf cb.2) r (last cbs)),
       tr ++ (callbackEvent <$> cbs)).
Proof.
  induction cbs as [|[index outcome] rest IH]; intros r tr.
  - simpl. by rewrite app_nil_r.
  - destruct outcome as [error|value]; simpl; rewrite IH, <- app_assoc; simpl;
      f_equal; f_equal.
    all: destruct rest as [|next rest]; [done|].
    all: change (last (?x :: next :: rest)) with (last (next :: rest)).
    all: by destruct (proj2 (last_is_Some (next :: rest)) ltac:(done)) as [cb ->].
Qed.

Lemma onInterface_singular_variant {V} (method : Method)
    (f : HostSession → PS → BatchRun V * PS)
    (m : Manager.t PS) (run : BatchRun V) (ps' : PS) :
  f (Manager.hostSession_ m) (object (Manager.managerInterface_ m)) = (run, ps') →
  Manager.onInterface
    (λ hs, invokeBatch method (f hs)
             (λ _ value _, Ret (VValue value)) (λ _ error _, Ret (VError error))
             (VError BatchElementError_default)) m =
    (completed (completion run)
       (from_option (λ cb, Manager.variantOf cb.2)
                    (VError BatchElementError_default) (last (callbacks run))),
     afterBatch method ps' (callbackEvent <$> callbacks run) m).
Proof.
  intros Hf. unfold Manager.onInterface, invokeBatch, afterBatch.
  rewrite Hf, deliver_overwrite_variant, <- app_assoc. simpl.
  by destruct (completion run) as [[]| |].
Qed.

(** X2. The singular, variant shapes of [resolve], [preflight] and
    [register_] return what the last callback of the plugin's run
    delivered, as a variant, whatever index it named; with no callback
    at all they return the error variant holding a value-initialised
    error. They throw only what the plugin's method itself throws. *)
Theorem singular_variant_spec (entityReference : EntityReference) (c : Context)
    (m : Manager.t PS) :
  let hs := Manager.hostSession_ m in
  let ps := object (Manager.managerInterface_ m) in
  (∀ (ts : TraitSet) (a : ResolveAccess) run ps',
     resolve impl [entityReference] ts a c hs ps = (run, ps') →
     Manager.resolve_singular_variant impl entityReference ts a c m =
       (completed (completion run)
          (from_option (λ cb, Manager.variantOf cb.2)
                       (VError BatchElementError_default) (last (callbacks run))),
        afterBatch M_resolve ps' (callbackEvent <$> callbacks run) m)) ∧
  (∀ (hint : TraitsDataPtr) (a : PublishingAccess) run ps',
     preflight impl [entityReference] [hint] a c hs ps = (run, ps') →
     Manager.preflight_singular_variant impl entityReference hint a c m =
       (completed (completion run)
          (from_option (λ cb, Manager.variantOf cb.2)
                       (VError BatchElementError_default) (last (callbacks run))),
        afterBatch M_preflight ps' (callbackEvent <$> callbacks run) m)) ∧
  (∀ (data : TraitsDataPtr) (a : PublishingAccess) run ps',
     register_ impl [entityReference] [data] a c hs ps = (run, ps') →
     Manager.register_singular_variant impl entityReference data a c m =
       (completed (completion run)
          (from_option (λ cb, Manager.variantOf cb.2)
                       (VError BatchElementError_default) (last (callbacks run))),
        afterBatch M_register_ ps' (callbackEvent <$> callbacks run) m)).
Proof.
  intros hs ps. split; [|split].
  - intros ts a run ps' Hrun.
    exact (onInterface_singular_variant M_resolve
             (λ hs, resolve impl [entityReference] ts a c hs) m run ps' Hrun).
  - intros hint a run ps' Hrun.
    exact (onInterface_singular_variant M_preflight
             (λ hs, preflight impl [entityReference] [hint] a c hs) m run ps' Hrun).
  - intros data a run ps' Hrun.
    exact (onInterface_singular_variant M_register_
             (λ hs, register_ impl [entityReference] [data] a c hs) m run ps' Hrun).
Qed.

(** ** The plural, exception-throwing shapes, read off the plugin's run *)

Lemma deliver_store_successes {V} (refs : EntityReferences) (a : Access)
    (vals : list (nat * V)) :
  ∀ (r : list V) tr,
    Forall (λ iv, iv.1 < length r) vals →
    ∃ r',
      deliver Manager.failFast_store (Manager.failFast_raise refs a)
              (successes vals) r tr =
        (Ret r', tr ++ (SuccessCallback <$> vals.*1)) ∧
      length r' = length r ∧
      (∀ j, j ∉ vals.*1 → r' !! j = r !! j) ∧
      (NoDup vals.*1 → ∀ i v, (i, v) ∈ vals → r' !! i = Some v).
Proof.
  induction vals as [|[index value] rest IH]; intros r tr Hrange.
  - exists r. simpl. rewrite app_nil_r. split; [done|]. split; [done|].
    split; [done|]. intros _ i v Hin. by apply elem_of_nil in Hin.
  - apply Forall_cons in Hrange as [Hlt Hrange]. simpl in Hlt.
    destruct (IH (<[index := value]> r) (tr ++ [SuccessCallback index]))
      as (r' & Hrun & Hlen & Hkeep & Hset).
    { by rewrite length_insert. }
    exists r'. split; [|split; [|split]].
    + change (successes ((index, value) :: rest))
        with ((index, inr value) :: successes rest).
      rewrite deliver_cons_success. unfold Manager.failFast_store at 1, assign.
      rewrite decide_True by done. by rewrite Hrun, <- app_assoc.
    + by rewrite Hlen, length_insert.
    + intros j Hj. rewrite fmap_cons in Hj.
      apply not_elem_of_cons in Hj as [Hne Hj].
      rewrite (Hkeep j Hj). by apply list_lookup_insert_ne.
    + rewrite fmap_cons. intros [Hfresh Hnodup]%NoDup_cons i v Hin.
      apply elem_of_cons in Hin as [[= -> ->]|Hin].
      * rewrite (Hkeep index Hfresh). by apply list_lookup_insert_eq.
      * by apply Hset.
Qed.

Lemma onInterface_plural_throw_run {V} (method : Method)
    (f : HostSession → PS → BatchRun V * PS)
    (refs : EntityReferences) (a : Access) (d : V) (n : nat)
    (m : Manager.t PS) (run : BatchRun V) (ps' : PS) :
  let call :=
    Manager.onInterface
      (λ hs, invokeBatch method (f hs) Manager.failFast_store
               (Manager.failFast_raise refs a) (replicate n d)) m in
  f (Manager.hostSession_ m) (object (Manager.managerInterface_ m)) = (run, ps') →
  (∀ vals i e ref post,
     callbacks run = successes vals ++ (i, inl e) :: post →
     Forall (λ iv, iv.1 < n) vals →
     refs !! i = Some ref →
     call = (Throw (BatchElementException i e
                      (createBatchElementExceptionMessage e i ref a)),
             afterBatch method ps'
               ((SuccessCallback <$> vals.*1) ++ [ErrorCallback i e]) m)) ∧
  (∀ vals,
     callbacks run = successes vals →
     Forall (λ iv, iv.1 < n) vals →
     ∃ vs,
       call = (completed (completion run) vs,
               afterBatch method ps' (SuccessCallback <$> vals.*1) m) ∧
       length vs = n ∧
       (∀ j, j < n → j ∉ vals.*1 → vs !! j = Some d) ∧
       (NoDup vals.*1 → ∀ i v, (i, v) ∈ vals → vs !! i = Some v)).
Proof.
  intros call Hf. subst call. unfold Manager.onInterface, invokeBatch, afterBatch.
  rewrite Hf. split.
  - intros vals i e ref post -> Hrange Href.
    destruct (deliver_store_successes refs a vals (replicate n d)
                (trace (Manager.managerInterface_ m) ++ [Invoked method]))
      as (r' & Hrun & _); [by rewrite length_replicate|].
    rewrite deliver_app, Hrun. simpl.
    unfold Manager.failFast_raise at 1. rewrite Href. simpl.
    by rewrite <- !app_assoc.
  - intros vals -> Hrange.
    destruct (deliver_store_successes refs a vals (replicate n d)
                (trace (Manager.managerInterface_ m) ++ [Invoked method]))
      as (r' & Hrun & Hlen & Hkeep & Hset); [by rewrite length_replicate|].
    exists r'. rewrite Hrun, <- app_assoc. simpl.
    split; [by destruct (completion run) as [[]| |]|].
    split; [by rewrite Hlen, length_replicate|]. split; [|done].
    intros j Hj Hfresh. rewrite (Hkeep j Hfresh). by apply lookup_replicate_2.
Qed.

(** X3. In the plural, exception-throwing shapes, the exception is that of
    the first error callback in the order in which the plugin invokes its
    callbacks, not that of the lowest failing index: when the plugin's run
    is some successes, then an error for index [i], then anything, the
    call throws for [i] and the trace ends with that error callback, so no
    callback after it is invoked. *)
Theorem plural_throw_first_error (refs : EntityReferences) (c : Context)
    (m : Manager.t PS) :
  let hs := Manager.hostSession_ m in
  let ps := object (Manager.managerInterface_ m) in
  (∀ (ts : TraitSet) (a : ResolveAccess) run ps' vals i e ref post,
     resolve impl refs ts a c hs ps = (run, ps') →
     callbacks run = successes vals ++ (i, inl e) :: post →
     Forall (λ iv, iv.1 < length refs) vals →
     refs !! i = Some ref →
     Manager.resolve_multi_except impl refs ts a c m =
       (Throw (BatchElementException i e
                 (createBatchElementExceptionMessage e i ref (resolveAccess_cast a))),
        afterBatch M_resolve ps'
          ((SuccessCallback <$> vals.*1) ++ [ErrorCallback i e]) m)) ∧
  (∀ (hints : TraitsDatas) (a : PublishingAccess) run ps' vals i e ref post,
     length refs = length hints →
     preflight impl refs hints a c hs ps = (run, ps') →
     callbacks run = successes vals ++ (i, inl e) :: post →
     Forall (λ iv, iv.1 < length refs) vals →
     refs !! i = Some ref →
     Manager.preflight_multi_except impl refs hints a c m =
       (Throw (BatchElementException i e
                 (createBatchElementExceptionMessage e i ref
                    (publishingAccess_cast a))),
        afterBatch M_preflight ps'
          ((SuccessCallback <$> vals.*1) ++ [ErrorCallback i e]) m)) ∧
  (∀ (datas : TraitsDatas) (a : PublishingAccess) run ps' vals i e ref post,
     length refs = length datas →
     register_ impl refs datas a c hs ps = (run, ps') →
     callbacks run = successes vals ++ (i, inl e) :: post →
     Forall (λ iv, iv.1 < length refs) vals →
     refs !! i = Some ref →
     Manager.register_multi_except impl refs datas a c m =
       (Throw (BatchElementException i e
                 (createBatchElementExceptionMessage e i ref
                    (publishingAccess_cast a))),
        afterBatch M_register_ ps'
          ((SuccessCallback <$> vals.*1) ++ [ErrorCallback i e]) m)).
Proof.
  intros hs ps. split; [|split].
  - intros ts a run ps' vals i e ref post Hrun Hcbs Hrange Href.
    destruct (onInterface_plural_throw_run M_resolve
                (λ hs, resolve impl refs ts a c hs) refs (resolveAccess_cast a)
                None (length refs) m run ps' Hrun) as [Herr _].
    exact (Herr vals i e ref post Hcbs Hrange Href).
  - intros hints a run ps' vals i e ref post Hlen Hrun Hcbs Hrange Href.
    unfold Manager.preflight_multi_except, Manager.preflight.
    rewrite <- Hlen, Nat.eqb_refl. simpl.
    destruct (onInterface_plural_throw_run M_preflight
                (λ hs, preflight impl refs hints a c hs) refs
                (publishingAccess_cast a) (mkEntityReference "")
                (length refs) m run ps' Hrun) as [Herr _].
    exact (Herr vals i e ref post Hcbs Hrange Href).
  - intros datas a run ps' vals i e ref post Hlen Hrun Hcbs Hrange Href.
    unfold Manager.register_multi_except, Manager.register_.
    rewrite <- Hlen, Nat.eqb_refl. simpl.
    destruct (onInterface_plural_throw_run M_register_
                (λ hs, register_ impl refs datas a c hs) refs
                (publishingAccess_cast a) (mkEntityReference "")
                (length refs) m run ps' Hrun) as [Herr _].
    exact (Herr vals i e ref post Hcbs Hrange Href).
Qed.

(** X4. In the plural, exception-throwing shapes, a run of successes only
    (each for an index of the input) makes the call return a list as long
    as the input: an index the plugin never reported holds the initial
    value (a null pointer for [resolve], the empty reference for
    [preflight] and [register_]), and when no index is reported twice each
    reported index holds its value. *)
Theorem plural_throw_all_successes (refs : EntityReferences) (c : Context)
    (m : Manager.t PS) :
  let hs := Manager.hostSession_ m in
  let ps := object (Manager.managerInterface_ m) in
  (∀ (ts : TraitSet) (a : ResolveAccess) run ps' vals,
     resolve impl refs ts a c hs ps = (run, ps') →
     callbacks run = successes vals →
     Forall (λ iv, iv.1 < length refs) vals →
     ∃ vs,
       Manager.resolve_multi_except impl refs ts a c m =
         (completed (completion run) vs,
          afterBatch M_resolve ps' (SuccessCallback <$> vals.*1) m) ∧
       length vs = length refs ∧
       (∀ j, j < length refs → j ∉ vals.*1 → vs !! j = Some None) ∧
       (NoDup vals.*1 → ∀ i v, (i, v) ∈ vals → vs !! i = Some v)) ∧
  (∀ (hints : TraitsDatas) (a : PublishingAccess) run ps' vals,
     length refs = length hints →
     preflight impl refs hints a c hs ps = (run, ps') →
     callbacks run = successes vals →
     Forall (λ iv, iv.1 < length refs) vals →
     ∃ vs,
       Manager.preflight_multi_except impl refs hints a c m =
         (completed (completion run) vs,
          afterBatch M_preflight ps' (SuccessCallback <$> vals.*1) m) ∧
       length vs = length refs ∧
       (∀ j, j < length refs → j ∉ vals.*1 →
             vs !! j = Some (mkEntityReference "")) ∧
       (NoDup vals.*1 → ∀ i v, (i, v) ∈ vals → vs !! i = Some v)) ∧
  (∀ (datas : TraitsDatas) (a : PublishingAccess) run ps' vals,
     length refs = length datas →
     register_ impl refs datas a c hs ps = (run, ps') →
     callbacks run = successes vals →
     Forall (λ iv, iv.1 < length refs) vals →
     ∃ vs,
       Manager.register_multi_except impl refs datas a c m =
         (completed (completion run) vs,
          afterBatch M_register_ ps' (SuccessCallback <$> vals.*1) m) ∧
       length vs = length refs ∧
       (∀ j, j < length refs → j ∉ vals.*1 →
             vs !! j = Some (mkEntityReference "")) ∧
       (NoDup vals.*1 → ∀ i v, (i, v) ∈ vals → vs !! i = Some v)).
Proof.
  intros hs ps. split; [|split].
  - intros ts a run ps' vals Hrun Hcbs Hrange.
    destruct (onInterface_plural_throw_run M_resolve
                (λ hs, resolve impl refs ts a c hs) refs (resolveAccess_cast a)
                None (length refs) m run ps' Hrun) as [_ Hok].
    exact (Hok vals Hcbs Hrange).
  - intros hints a run ps' vals Hlen Hrun Hcbs Hrange.
    unfold Manager.preflight_multi_except, Manager.preflight.
    rewrite <- Hlen, Nat.eqb_refl. simpl.
    destruct (onInterface_plural_throw_run M_preflight
                (λ hs, preflight impl refs hints a c hs) refs
                (publishingAccess_cast a) (mkEntityReference "")
                (length refs) m run ps' Hrun) as [_ Hok].
    exact (Hok vals Hcbs Hrange).
  - intros datas a run ps' vals Hlen Hrun Hcbs Hrange.
    unfold Manager.register_multi_except, Manager.register_.
    rewrite <- Hlen, Nat.eqb_refl. simpl.
    destruct (onInterface_plural_throw_run M_register_
                (λ hs, register_ impl refs datas a c hs) refs
                (publishingAccess_cast a) (mkEntityReference "")
                (length refs) m run ps' Hrun) as [_ Hok].
    exact (Hok vals Hcbs Hrange).
Qed.

(** ** The plural, exception-throwing shapes and the error the plugin reports *)



(** ** The plural, variant shapes beyond conformant runs *)

Lemma onInterface_variant_partial {V} (method : Method)
    (f : HostSession → PS → BatchRun V * PS) (n : nat)
    (m : Manager.t PS) (run : BatchRun V) (ps' : PS) :
  f (Manager.hostSession_ m) (object (Manager.managerInterface_ m)) = (run, ps') →
  Forall (λ cb, cb.1 < n) (callbacks run) →
  NoDup (callbacks run).*1 →
  ∃ vs m',
    Manager.onInterface
      (λ hs, invokeBatch method (f hs)
               (λ index value res, assign res index (VValue value))
               (λ index error res, assign res index (VError error))
               (replicate n (VError BatchElementError_default))) m =
      (completed (completion run) vs, m') ∧
    length vs = n ∧
    (∀ i outcome, (i, outcome) ∈ callbacks run →
                  vs !! i = Some (Manager.variantOf outcome)) ∧
    (∀ j, j < n → j ∉ (callbacks run).*1 →
          vs !! j = Some (VError BatchElementError_default)).
Proof.
  intros Hf Hrange Hnodup. unfold Manager.onInterface, invokeBatch. rewrite Hf.
  destruct (deliver_collect (callbacks run)
              (replicate n (VError BatchElementError_default))
              (trace (Manager.managerInterface_ m) ++ [Invoked method]))
    as (vs & tr' & Hrun & Hlen & Hset & Hkeep);
    [by rewrite length_replicate|done|].
  rewrite Hrun. eexists vs, _. split.
  { by destruct (completion run) as [[]| |]. }
  split; [by rewrite Hlen, length_replicate|]. split; [done|].
  intros j Hj Hfresh. rewrite (Hkeep j Hfresh). by apply lookup_replicate_2.
Qed.

(** X5. In the plural, variant shapes, when the plugin names no index
    twice and none outside the input, every reported index holds its
    outcome and every index the plugin skipped holds the error variant
    with a value-initialised error; the call ends as the plugin's method
    itself ends, so an exception of the plugin is not captured. *)
Theorem plural_variant_skipped_indices (refs : EntityReferences) (c : Context)
    (m : Manager.t PS) :
  let hs := Manager.hostSession_ m in
  let ps := object (Manager.managerInterface_ m) in
  (∀ (ts : TraitSet) (a : ResolveAccess) run ps',
     resolve impl refs ts a c hs ps = (run, ps') →
     Forall (λ cb, cb.1 < length refs) (callbacks run) →
     NoDup (callbacks run).*1 →
     ∃ vs m',
       Manager.resolve_multi_variant impl refs ts a c m =
         (completed (completion run) vs, m') ∧
       length vs = length refs ∧
       (∀ i outcome, (i, outcome) ∈ callbacks run →
                     vs !! i = Some (Manager.variantOf outcome)) ∧
       (∀ j, j < length refs → j ∉ (callbacks run).*1 →
             vs !! j = Some (VError BatchElementError_default))) ∧
  (∀ (hints : TraitsDatas) (a : PublishingAccess) run ps',
     length refs = length hints →
     preflight impl refs hints a c hs ps = (run, ps') →
     Forall (λ cb, cb.1 < length refs) (callbacks run) →
     NoDup (callbacks run).*1 →
     ∃ vs m',
       Manager.preflight_multi_variant impl refs hints a c m =
         (completed (completion run) vs, m') ∧
       length vs = length refs ∧
       (∀ i outcome, (i, outcome) ∈ callbacks run →
                     vs !! i = Some (Manager.variantOf outcome)) ∧
       (∀ j, j < length refs → j ∉ (callbacks run).*1 →
             vs !! j = Some (VError BatchElementError_default))) ∧
  (∀ (datas : TraitsDatas) (a : PublishingAccess) run ps',
     length refs = length datas →
     register_ impl refs datas a c hs ps = (run, ps') →
     Forall (λ cb, cb.1 < length refs) (callbacks run) →
     NoDup (callbacks run).*1 →
     ∃ vs m',
       Manager.register_multi_variant impl refs datas a c m =
         (completed (completion run) vs, m') ∧
       length vs = length refs ∧
       (∀ i outcome, (i, outcome) ∈ callbacks run →
                     vs !! i = Some (Manager.variantOf outcome)) ∧
       (∀ j, j < length refs → j ∉ (callbacks run).*1 →
             vs !! j = Some (VError BatchElementError_default))).
Proof.
  intros hs ps. split; [|split].
  - intros ts a run ps' Hrun Hrange Hnodup.
    exact (onInterface_variant_partial M_resolve
             (λ hs, resolve impl refs ts a c hs) (length refs) m run ps'
             Hrun Hrange Hnodup).
  - intros hints a run ps' Hlen Hrun Hrange Hnodup.
    unfold Manager.preflight_multi_variant, Manager.preflight.
    rewrite <- Hlen, Nat.eqb_refl. simpl.
    exact (onInterface_variant_partial M_preflight
             (λ hs, preflight impl refs hints a c hs) (length refs) m run ps'
             Hrun Hrange Hnodup).
  - intros datas a run ps' Hlen Hrun Hrange Hnodup.
    unfold Manager.register_multi_variant, Manager.register_.
    rewrite <- Hlen, Nat.eqb_refl. simpl.
    exact (onInterface_variant_partial M_register_
             (λ hs, register_ impl refs datas a c hs) (length refs) m run ps'
             Hrun Hrange Hnodup).
Qed.

(** ** The four derived shapes on one element *)



(** ** Contexts *)

(** X7. [createContext] asks the plugin for a state only if the plugin
    advertises stateful contexts: without the capability the new context
    has no manager state and [createState] is not called; with it the
    manager state is what [createState] returns; an exception of either
    plugin call leaves the call. The locale is always a fresh, empty
    bundle. *)
Theorem createContext_spec (m : Manager.t PS) (r1 : Res bool) (ps1 : PS) :
  hasCapability impl kStatefulContexts (object (Manager.managerInterface_ m)) =
    (r1, ps1) →
  let m1 := Manager.afterCall M_hasCapability ps1 m in
  Manager.createContext impl m =
    match r1 with
    | Ret false =>
        (Ret {| locale := Some TraitsData_make; managerState := None |}, m1)
    | Ret true =>
        let (r2, ps2) := createState impl (Manager.hostSession_ m) ps1 in
        (match r2 with
         | Ret state =>
             Ret {| locale := Some TraitsData_make; managerState := state |}
         | Throw e => Throw e
         | Undefined => Undefined
         end, Manager.afterCall M_createState ps2 m1)
    | Throw e => (Throw e, m1)
    | Undefined => (Undefined, m1)
    end.
Proof.
  intros Hcap m1. subst m1.
  unfold Manager.createContext, Manager.hasCapability, Manager.afterCall.
  unfold mbind, M_bind, bind, mret, M_ret, ret, Manager.onInterface, invoke.
  rewrite Hcap. destruct r1 as [[|]| |]; simpl; try done.
  by destruct (createState impl _ ps1) as [[state| |] ps2].
Qed.

(** X8. [createChildContext] copies the parent's locale. A parent without
    manager state yields a child without one and nothing is touched; a
    parent with a state has the plugin derive the child's state from
    it. *)
Theorem createChildContext_spec (parentContext : Context) (m : Manager.t PS) :
  (managerState parentContext = None →
   Manager.createChildContext impl parentContext m =
     (Ret {| locale := locale parentContext; managerState := None |}, m)) ∧
  (∀ state, managerState parentContext = Some state →
     Manager.createChildContext impl parentContext m =
       let (r, ps') :=
         createChildState impl (Some state) (Manager.hostSession_ m)
                          (object (Manager.managerInterface_ m)) in
       (match r with
        | Ret childState =>
            Ret {| locale := locale parentContext; managerState := childState |}
        | Throw e => Throw e
        | Undefined => Undefined
        end, Manager.afterCall M_createChildState ps' m)).
Proof.
  unfold Manager.createChildContext. split.
  - intros ->. done.
  - intros state ->.
    unfold mbind, M_bind, bind, mret, M_ret, ret, Manager.onInterface, invoke,
      Manager.afterCall.
    by destruct (createChildState impl _ _ _) as [[childState| |] ps'].
Qed.

Lemma createContext_stateless (m : Manager.t PS) (ps1 : PS) :
  hasCapability impl kStatefulContexts (object (Manager.managerInterface_ m)) =
    (Ret false, ps1) →
  Manager.createContext impl m =
    (Ret {| locale := Some TraitsData_make; managerState := None |},
     Manager.afterCall M_hasCapability ps1 m).
Proof.
  intros Hcap.
  unfold Manager.createContext, Manager.hasCapability, Manager.afterCall.
  unfold mbind, M_bind, bind, mret, M_ret, ret, Manager.onInterface, invoke.
  by rewrite Hcap.
Qed.

(** X9. With a plugin that does not advertise stateful contexts, creating
    a context, deriving a child from it and serialising the child costs
    one plugin call, the capability query: both contexts are without
    manager state and the token is empty. *)
Theorem stateless_context_lifecycle (m : Manager.t PS) (ps1 : PS) :
  hasCapability impl kStatefulContexts (object (Manager.managerInterface_ m)) =
    (Ret false, ps1) →
  let fresh := {| locale := Some TraitsData_make; managerState := None |} in
  contextLifecycle impl m =
    (Ret (fresh, fresh, ""), Manager.afterCall M_hasCapability ps1 m).
Proof.
  intros Hcap fresh. unfold contextLifecycle.
  unfold mbind at 1, M_bind, bind.
  rewrite (createContext_stateless m ps1 Hcap). done.
Qed.

(** X10. Serialising a context and reading the token back. A context
    without manager state comes back without one and the plugin is not
    called. A context whose state the plugin serialises to the empty
    token also comes back without manager state, and the plugin is not
    asked to rebuild it. For any other token the plugin rebuilds the
    state from the token. *)
Theorem token_round_trip (context : Context) (m : Manager.t PS) :
  let hs := Manager.hostSession_ m in
  (managerState context = None →
   tokenRoundTrip impl context m =
     (Ret {| locale := None; managerState := None |}, m)) ∧
  (∀ state token ps1,
     managerState context = Some state →
     persistenceTokenForState impl (Some state) hs
                              (object (Manager.managerInterface_ m)) =
       (Ret token, ps1) →
     let m1 := Manager.afterCall M_persistenceTokenForState ps1 m in
     (token = "" →
      tokenRoundTrip impl context m =
        (Ret {| locale := None; managerState := None |}, m1)) ∧
     (token ≠ "" →
      tokenRoundTrip impl context m =
        let (r, ps2) := stateFromPersistenceToken impl token hs ps1 in
        (match r with
         | Ret rebuilt => Ret {| locale := None; managerState := rebuilt |}
         | Throw e => Throw e
         | Undefined => Undefined
         end, Manager.afterCall M_stateFromPersistenceToken ps2 m1))).
Proof.
  intros hs. unfold tokenRoundTrip, Manager.persistenceTokenForContext. split.
  - intros ->. done.
  - intros state token ps1 -> Htoken.
    assert (Hstep :
      (Manager.onInterface
         (λ hostSession,
            invoke M_persistenceTokenForState
              (persistenceTokenForState impl (Some state) hostSession))
       ≫= λ token0, Manager.contextFromPersistenceToken impl token0) m =
      Manager.contextFromPersistenceToken impl token
        (Manager.afterCall M_persistenceTokenForState ps1 m)).
    { unfold mbind, M_bind, bind, Manager.onInterface, invoke.
      fold hs. by rewrite Htoken. }
    rewrite Hstep. unfold Manager.contextFromPersistenceToken. split.
    + intros ->. done.
    + intros Hne. apply String.eqb_neq in Hne. rewrite Hne. simpl.
      unfold mbind, M_bind, bind, Manager.onInterface, invoke. simpl. fold hs.
      by destruct (stateFromPersistenceToken impl token hs ps1) as [[| |] ps2].
Qed.

(** ** The host session *)

Lemma session_ret {A} (a : A) : keeps_session (PS := PS) (ret a).
Proof. by intros m. Qed.

Lemma session_throw {A} (e : Exception) : keeps_session (PS := PS) (A := A) (throw e).
Proof. by intros m. Qed.

Lemma session_bind {A B} (c : M (Manager.t PS) A) (k : A → M (Manager.t PS) B) :
  keeps_session c → (∀ a, keeps_session (k a)) → keeps_session (bind c k).
Proof.
  intros Hc Hk m. unfold bind. specialize (Hc m).
  destruct (c m) as [[a| |] m']; simpl in *; try done.
  by rewrite Hk.
Qed.

Lemma session_onInterface {A} (c : HostSession → M (Ptr PS) A) :
  keeps_session (Manager.onInterface c).
Proof.
  intros m. unfold Manager.onInterface.
  by destruct (c (Manager.hostSession_ m) (Manager.managerInterface_ m)).
Qed.

Lemma session_if {A} (b : bool) (c1 c2 : M (Manager.t PS) A) :
  keeps_session c1 → keeps_session c2 → keeps_session (if b then c1 else c2).
Proof. by destruct b. Qed.

Lemma session_isEntityReferenceString (s : Str) :
  keeps_session (Manager.isEntityReferenceString impl s).
Proof.
  intros m. unfold Manager.isEntityReferenceString.
  destruct (Manager.entityReferencePrefix_ m); [done|]. apply session_onInterface.
Qed.

Create HintDb session.
#[local] Hint Resolve session_onInterface session_if
  session_isEntityReferenceString : session.
#[local] Hint Extern 1 (keeps_session (mret _)) => apply session_ret : session.
#[local] Hint Extern 1 (keeps_session (ret _)) => apply session_ret : session.
#[local] Hint Extern 1 (keeps_session (throw _)) => apply session_throw : session.
#[local] Hint Extern 2 (keeps_session (mbind _ _)) =>
  apply session_bind; [|intros ?] : session.

Ltac session := auto 10 with session.

Ltac callee c :=
  lazymatch c with
  | ?f _ => callee f
  | _ => c
  end.

Lemma session_hasCapability (capability : Capability) :
  keeps_session (Manager.hasCapability impl capability).
Proof. unfold Manager.hasCapability. session. Qed.

Lemma session_resolve {R} refs ts a c sc ec (r : R) :
  keeps_session (Manager.resolve impl refs ts a c sc ec r).
Proof. unfold Manager.resolve. session. Qed.

Lemma session_preflight {R} refs hints a c sc ec (r : R) :
  keeps_session (Manager.preflight impl refs hints a c sc ec r).
Proof. unfold Manager.preflight. session. Qed.

Lemma session_register_ {R} refs datas a c sc ec (r : R) :
  keeps_session (Manager.register_ impl refs datas a c sc ec r).
Proof. unfold Manager.register_. session. Qed.

#[local] Hint Resolve session_hasCapability session_resolve session_preflight
  session_register_ : session.

Lemma perform_keeps_session (op : Manager.Operation) (m : Manager.t PS) :
  Manager.is_initialize op = false →
  Manager.hostSession_ (Manager.perform impl op m) = Manager.hostSession_ m.
Proof.
  destruct op; simpl; try done; intros _.
  all: match goal with
       | |- Manager.hostSession_ (?c _).2 = _ =>
           enough (Hk : keeps_session c) by apply Hk
       end.
  all: try (by session).
  all: match goal with
       | |- keeps_session ?c => let h := callee c in unfold h
       end; try destruct (managerState _); session.
Qed.

(** ** Classification after and before [initialize] *)

(** X12. After a call of [initialize] that returns, what the plugin's info
    dictionary holds under the prefix key decides how strings are
    classified from then on. A string value [p] is cached and logged
    once at debug level, and classification is the prefix match against
    [p] with the plugin left alone. A value of another type is logged
    once as a warning. With such a value, or with no value, nothing is
    cached, whatever was cached before, and classification is the
    plugin's. *)
Theorem initialize_then_classify (managerSettings : InfoDictionary)
    (m : Manager.t PS) (ps1 : PS) (p2 : Ptr PS) (i : InfoDictionary) (ps3 : PS) :
  initialize impl managerSettings (Manager.hostSession_ m)
             (object (Manager.managerInterface_ m)) = (Ret tt, ps1) →
  verifyRequiredCapabilities impl
    (mkPtr ps1 (trace (Manager.managerInterface_ m) ++ [Invoked M_initialize])) =
    (Ret tt, p2) →
  info impl (object p2) = (Ret i, ps3) →
  ∃ m',
    Manager.initialize impl managerSettings m = (Ret tt, m') ∧
    Manager.managerInterface_ m' = mkPtr ps3 (trace p2 ++ [Invoked M_info]) ∧
    (∀ p, i !! kInfoKey_EntityReferencesMatchPrefix = Some (VStr p) →
       Manager.entityReferencePrefix_ m' = Some p ∧
       (∃ msg, logger (Manager.hostSession_ m') =
                 logger (Manager.hostSession_ m) ++ [(kDebugApi, msg)]) ∧
       ∀ s, ∃ b, Manager.isEntityReferenceString impl s m' = (Ret b, m') ∧
                 (b = true ↔ ∃ rest, s = p +:+ rest)) ∧
    (∀ v, i !! kInfoKey_EntityReferencesMatchPrefix = Some v →
       (∀ p, v ≠ VStr p) →
       Manager.entityReferencePrefix_ m' = None ∧
       logger (Manager.hostSession_ m') =
         logger (Manager.hostSession_ m) ++
         [(kWarning,
           "Entity reference prefix given but is an invalid type: should be a string.")]) ∧
    (i !! kInfoKey_EntityReferencesMatchPrefix = None →
       Manager.entityReferencePrefix_ m' = None ∧
       Manager.hostSession_ m' = Manager.hostSession_ m) ∧
    (Manager.entityReferencePrefix_ m' = None →
       ∀ s, Manager.isEntityReferenceString impl s m' =
              let (r, ps') :=
                isEntityReferenceString impl s (Manager.hostSession_ m') ps3 in
              (r, Manager.afterCall M_isEntityReferenceString ps' m')).
Proof.
  intros Hinit Hverify Hinfo.
  rewrite initialize_unfold. simpl. rewrite Hinit, Hverify, Hinfo.
  unfold entityReferencePrefixFromInfo, debugApi, warning.
  assert (Hdelegated : ∀ m' : Manager.t PS,
            Manager.managerInterface_ m' = mkPtr ps3 (trace p2 ++ [Invoked M_info]) →
            Manager.entityReferencePrefix_ m' = None →
            ∀ s, Manager.isEntityReferenceString impl s m' =
                   let (r, ps') :=
                     isEntityReferenceString impl s (Manager.hostSession_ m') ps3 in
                   (r, Manager.afterCall M_isEntityReferenceString ps' m')).
  { intros m' Hptr Hnone s.
    rewrite (isEntityReferenceString_delegated impl s m' Hnone). by rewrite Hptr. }
  destruct (i !! kInfoKey_EntityReferencesMatchPrefix) as [[b|z|bits|p]|];
    (eexists; split; [reflexivity|]); simpl; (split; [done|]).
  1-3: split; [done|]; split; [intros v [= <-] Hv; by split|];
         split; [done|]; intros Hnone; by apply Hdelegated.
  - split; [|split; [|split; [done|done]]].
    + intros p' [= <-]. split; [done|]. split; [by eexists|].
      intros s. eexists. split.
      * by apply isEntityReferenceString_cached.
      * rewrite bool_decide_eq_true. apply rfind_0_starts_with.
    + intros v [= <-] Hv. exfalso. by apply (Hv p).
  - split; [done|]. split; [done|]. split.
    + intros _. split; [done|]. by destruct (Manager.hostSession_ m).
    + intros Hnone. by apply Hdelegated.
Qed.

Lemma performAll_keeps_session (ops : list Manager.Operation) :
  ∀ m : Manager.t PS,
    forallb (λ op, negb (Manager.is_initialize op)) ops = true →
    Manager.hostSession_ (Manager.performAll impl ops m) = Manager.hostSession_ m.
Proof.
  unfold Manager.performAll.
  induction ops as [|op ops IH]; intros m Hops; simpl in *; [done|].
  apply andb_prop in Hops as [Hop Hops].
  rewrite IH by done. apply perform_keeps_session.
  by apply negb_true_iff.
Qed.

(** X13. Before [initialize], classification is the plugin's: on a facade
    as [make] builds it, and after any operations on it other than
    [initialize], [isEntityReferenceString] makes exactly one call of the
    plugin's method and returns its answer. *)
Theorem classification_before_initialize (managerInterface : Ptr PS)
    (hostSession : HostSession) (ops : list Manager.Operation) (s : Str) :
  forallb (λ op, negb (Manager.is_initialize op)) ops = true →
  let m := Manager.performAll impl ops (Manager.make managerInterface hostSession) in
  Manager.hostSession_ m = hostSession ∧
  Manager.isEntityReferenceString impl s m =
    let (r, ps') :=
      isEntityReferenceString impl s hostSession
                              (object (Manager.managerInterface_ m)) in
    (r, Manager.afterCall M_isEntityReferenceString ps' m).
Proof.
  intros Hops m.
  assert (Hsession : Manager.hostSession_ m = hostSession)
    by (subst m; by rewrite performAll_keeps_session).
  split; [done|]. rewrite <- Hsession.
  apply isEntityReferenceString_delegated.
  subst m. by rewrite performAll_keeps_prefix.
Qed.

(** ** Reference construction with a cached prefix *)

(** X14. With a cached prefix, constructing a reference consults the
    prefix alone: a string that starts with it becomes a reference, any
    other string is refused with the input validation error, resp. with
    no reference, and in both cases the plugin is not called and nothing
    changes. *)
Theorem createEntityReference_cached (s prefix : Str) (m : Manager.t PS) :
  Manager.entityReferencePrefix_ m = Some prefix →
  ((∃ rest, s = prefix +:+ rest) →
   Manager.createEntityReference impl s m = (Ret (mkEntityReference s), m) ∧
   Manager.createEntityReferenceIfValid impl s m =
     (Ret (Some (mkEntityReference s)), m)) ∧
  (¬ (∃ rest, s = prefix +:+ rest) →
   Manager.createEntityReference impl s m =
     (Throw (InputValidationException ("Invalid entity reference: " +:+ s)), m) ∧
   Manager.createEntityReferenceIfValid impl s m = (Ret None, m)).
Proof.
  intros Hp.
  unfold Manager.createEntityReference, Manager.createEntityReferenceIfValid.
  unfold mbind, M_bind, bind.
  rewrite (isEntityReferenceString_cached impl s prefix m Hp).
  split; intros Hstarts.
  - apply rfind_0_starts_with in Hstarts. by rewrite bool_decide_eq_true_2.
  - rewrite bool_decide_eq_false_2; [done|].
    intros Hfound. by apply Hstarts, rfind_0_starts_with.
Qed.

(** ** Relationship queries *)

(** Wrapping the pager inside the success callback is the same as the
    plugin reporting wrapped pagers. *)
Lemma deliver_wrapPager {R} (hostSession : HostSession)
    (sc : Callback EntityReferencePager R) (ec : Callback BatchElementError R)
    (cbs : list (nat * (BatchElementError + EntityReferencePagerInterface))) :
  ∀ r tr,
    deliver (λ idx pagerInterface,
               sc idx (mkEntityReferencePager pagerInterface hostSession))
            ec cbs r tr =
    deliver sc ec (wrapPager hostSession <$> cbs) r tr.
Proof.
  induction cbs as [|[index [error|pager]] rest IH]; intros r tr; simpl; [done|..].
  - destruct (ec index error r); simpl; by rewrite ?IH.
  - destruct (sc index _ r); simpl; by rewrite ?IH.
Qed.

Lemma deliver_record {V} (cbs : list (nat * (BatchElementError + V))) :
  ∀ seen tr,
    deliver recordSuccess recordError cbs seen tr =
      (Ret (seen ++ cbs), tr ++ (callbackEvent <$> cbs)).
Proof.
  induction cbs as [|[index [error|value]] rest IH]; intros seen tr; simpl.
  - by rewrite !app_nil_r.
  - unfold recordError at 1. rewrite IH, <- !app_assoc. done.
  - unfold recordSuccess at 1. rewrite IH, <- !app_assoc. done.
Qed.

(** X15. With a page size above zero, [getWithRelationship] and
    [getWithRelationships] call the plugin once, with the result trait
    set in third place, and a host that writes down its callbacks sees
    the plugin's callbacks, each once, in the plugin's order and under
    the plugin's indices: errors as they are, and each pager wrapped
    together with the facade's host session. *)
Theorem relationship_pagers_wrapped (pageSize : nat) (rel : TraitsDataPtr)
    (rels : TraitsDatas) (a : RelationsAccess) (c : Context)
    (resultTraitSet : TraitSet) (m : Manager.t PS) :
  pageSize ≠ 0 →
  let hs := Manager.hostSession_ m in
  let ps := object (Manager.managerInterface_ m) in
  (∀ (refs : EntityReferences) run ps',
     getWithRelationship impl refs rel resultTraitSet pageSize a c hs ps =
       (run, ps') →
     Manager.getWithRelationship impl refs rel pageSize a c
       recordSuccess recordError resultTraitSet [] m =
       (completed (completion run) (wrapPager hs <$> callbacks run),
        afterBatch M_getWithRelationship ps' (callbackEvent <$> callbacks run) m)) ∧
  (∀ (ref : EntityReference) run ps',
     getWithRelationships impl ref rels resultTraitSet pageSize a c hs ps =
       (run, ps') →
     Manager.getWithRelationships impl ref rels pageSize a c
       recordSuccess recordError resultTraitSet [] m =
       (completed (completion run) (wrapPager hs <$> callbacks run),
        afterBatch M_getWithRelationships ps' (callbackEvent <$> callbacks run) m)).
Proof.
  intros Hsize hs ps. apply Nat.eqb_neq in Hsize.
  assert (Hevents : ∀ cbs : list (nat * (BatchElementError + EntityReferencePagerInterface)),
            callbackEvent <$> (wrapPager hs <$> cbs) = callbackEvent <$> cbs).
  { intros cbs. rewrite <- list_fmap_compose. apply list_fmap_ext.
    by intros _ [index [error|pager]] _. }
  split.
  - intros refs run ps' Hrun.
    unfold Manager.getWithRelationship. rewrite Hsize.
    unfold Manager.onInterface, invokeBatch, afterBatch. fold hs ps.
    rewrite Hrun, deliver_wrapPager, deliver_record, Hevents, <- app_assoc.
    simpl. by destruct (completion run) as [[]| |].
  - intros ref run ps' Hrun.
    unfold Manager.getWithRelationships. rewrite Hsize.
    unfold Manager.onInterface, invokeBatch, afterBatch. fold hs ps.
    rewrite Hrun, deliver_wrapPager, deliver_record, Hevents, <- app_assoc.
    simpl. by destruct (completion run) as [[]| |].
Qed.
End MoreProperties.

(** * The properties at work on the stub plugin *)

Section Examples.
Import Stub ManagerInterface.
#[local] Existing Instance Stub.externals.


(** C5 as stated fails in two ways. A plugin that invokes one callback per
    index and then throws makes the variant shape throw: the closures
    capture errors the plugin reports, not exceptions it raises. And for
    [preflight] with no entity reference but one traits hint, where there
    is no index for which a callback could be missing, the call throws
    the input validation error. *)
Lemma plural_variant_can_throw :
  let hs := Manager.hostSession_ manager in
  let ps := object (Manager.managerInterface_ manager) in
  (Manager.oneCallbackPerIndex (length threeRefs)
     (resolve FailingStub.plugin threeRefs [] kRead context hs ps).1 ∧
   (Manager.resolve_multi_variant FailingStub.plugin threeRefs [] kRead context
                                  manager).1 =
     Throw FailingStub.kBackendLost) ∧
  (Manager.oneCallbackPerIndex (length (@nil EntityReference))
     (preflight plugin [] [None] kWrite context hs ps).1 ∧
   Manager.preflight_multi_variant plugin [] [None] kWrite context manager =
     (Throw (InputValidationException
               "Parameter lists must be of the same length: 0 entity references vs. 1 traits hints."),
      manager)).
Proof.
  intros hs ps. split; split.
  - unfold Manager.oneCallbackPerIndex. simpl. reflexivity.
  - reflexivity.
  - unfold Manager.oneCallbackPerIndex. simpl. reflexivity.
  - reflexivity.
Defined.

(** With ["stub://"] cached, classification is a prefix match. *)
Lemma isEntityReferenceString_spec_witness :
  Manager.entityReferencePrefix_ (initialized "stub://") = Some "stub://" ∧
  ∃ b, Manager.isEntityReferenceString plugin "stub://a" (initialized "stub://") =
         (Ret b, initialized "stub://") ∧
       (b = true ↔ ∃ rest, "stub://a" = "stub://" +:+ rest).
Proof.
  assert (Hp : Manager.entityReferencePrefix_ (initialized "stub://") = Some "stub://")
    by reflexivity.
  split; [exact Hp|].
  destruct (isEntityReferenceString_spec plugin "stub://a" (initialized "stub://"))
    as [Hcached _].
  exact (Hcached "stub://" Hp).
Defined.

(** Three references against one traits hint. *)
Lemma shape_violations_rejected_witness :
  length threeRefs ≠ length [@None (list Str)] ∧
  Manager.preflight_multi_variant plugin threeRefs [None] kWrite context manager =
    (Throw (InputValidationException
              "Parameter lists must be of the same length: 3 entity references vs. 1 traits hints."),
     manager).
Proof.
  assert (Hne : length threeRefs ≠ length [@None (list Str)]) by (simpl; lia).
  split; [exact Hne|].
  destruct (shape_violations_rejected plugin manager) as [Hlists _].
  destruct (Hlists threeRefs [None] kWrite context Hne) as (_ & _ & Hvariant & _).
  exact Hvariant.
Defined.

(** The stub, told to deny two of the three required capabilities. *)
Lemma required_capabilities_enforced_witness :
  initialize plugin denyingSettings (Manager.hostSession_ manager)
             (object (Manager.managerInterface_ manager)) =
    (Ret tt, mkState denyingSettings) ∧
  hasCapability plugin ERI (mkState denyingSettings) =
    (Ret false, mkState denyingSettings) ∧
  hasCapability plugin MPQ (mkState denyingSettings) =
    (Ret true, mkState denyingSettings) ∧
  hasCapability plugin ETI (mkState denyingSettings) =
    (Ret false, mkState denyingSettings) ∧
  (Manager.initialize plugin denyingSettings manager).1 =
    Throw (ConfigurationException
             "Manager implementation for 'org.stub.manager' does not support the required capabilities: entityReferenceIdentification, entityTraitIntrospection").
Proof.
  assert (H0 : initialize plugin denyingSettings (Manager.hostSession_ manager)
                 (object (Manager.managerInterface_ manager)) =
               (Ret tt, mkState denyingSettings)) by reflexivity.
  assert (H1 : hasCapability plugin ERI (mkState denyingSettings) =
               (Ret false, mkState denyingSettings)) by reflexivity.
  assert (H2 : hasCapability plugin MPQ (mkState denyingSettings) =
               (Ret true, mkState denyingSettings)) by reflexivity.
  assert (H3 : hasCapability plugin ETI (mkState denyingSettings) =
               (Ret false, mkState denyingSettings)) by reflexivity.
  repeat (split; [assumption|]).
  destruct (required_capabilities_enforced plugin denyingSettings manager
              false true false _ _ _ _ H0 H1 H2 H3) as [_ Hthrows].
  apply Hthrows. discriminate.
Defined.

(** The same three references in the variant shape: positions 0 and 2
    hold values, position 1 holds the error. *)
Lemma plural_variant_collects_witness :
  let run := answers (λ ref, Some [toString ref]) threeRefs in
  resolve plugin threeRefs [] kRead context (Manager.hostSession_ manager)
          (object (Manager.managerInterface_ manager)) = (run, mkState ∅) ∧
  Manager.oneCallbackPerIndex (length threeRefs) run ∧
  completion run = Ret tt ∧
  ∃ vs m',
    Manager.resolve_multi_variant plugin threeRefs [] kRead context manager =
      (Ret vs, m') ∧
    length vs = 3 ∧
    vs !! 0 = Some (VValue (Some ["stub://a"])) ∧
    vs !! 1 = Some (VError kEntityResolutionError) ∧
    vs !! 2 = Some (VValue (Some ["stub://c"])).
Proof.
  intros run.
  assert (Hrun : resolve plugin threeRefs [] kRead context
                   (Manager.hostSession_ manager)
                   (object (Manager.managerInterface_ manager)) = (run, mkState ∅))
    by reflexivity.
  assert (Hper : Manager.oneCallbackPerIndex (length threeRefs) run)
    by (unfold Manager.oneCallbackPerIndex; simpl; reflexivity).
  assert (Hdone : completion run = Ret tt) by reflexivity.
  repeat (split; [assumption|]).
  destruct (plural_variant_collects plugin manager threeRefs context) as [Hresolve _].
  destruct (Hresolve [] kRead run (mkState ∅) Hrun Hper Hdone)
    as (vs & m' & Hcall & Hlen & Hat).
  exists vs, m'. split; [exact Hcall|]. split; [exact Hlen|].
  split; [|split].
  - apply (Hat 0 (inr (Some ["stub://a"]))). apply list_elem_of_here.
  - apply (Hat 1 (inl kEntityResolutionError)).
    apply list_elem_of_further, list_elem_of_here.
  - apply (Hat 2 (inr (Some ["stub://c"]))).
    do 2 apply list_elem_of_further. apply list_elem_of_here.
Defined.

(** A string the stub does not recognise, before any prefix is cached. *)
Lemma createEntityReference_spec_witness :
  Manager.createEntityReference plugin "file:///a" manager =
    (Throw (InputValidationException "Invalid entity reference: file:///a"),
     Manager.afterCall M_isEntityReferenceString (mkState ∅) manager) ∧
  Manager.createEntityReferenceIfValid plugin "file:///a" manager =
    (Ret None, Manager.afterCall M_isEntityReferenceString (mkState ∅) manager).
Proof.
  destruct (createEntityReference_spec plugin "file:///a" manager) as [Hcases _].
  exact Hcases.
Defined.

(** A context without manager state, and a token of three characters. *)
Lemma persistence_token_spec_witness :
  managerState context = None ∧
  Manager.persistenceTokenForContext plugin context manager = (Ret "", manager) ∧
  "abc" ≠ "" ∧
  Manager.contextFromPersistenceToken plugin "abc" manager =
    (Ret {| locale := None; managerState := Some 3 |},
     Manager.afterCall M_stateFromPersistenceToken (mkState ∅) manager).
Proof.
  assert (Hstate : managerState context = None) by reflexivity.
  assert (Hne : "abc" ≠ "") by discriminate.
  destruct (persistence_token_spec plugin) as (Htoken & _ & Hcontext).
  split; [exact Hstate|]. split; [exact (Htoken context manager Hstate)|].
  split; [exact Hne|]. exact (Hcontext "abc" manager Hne).
Defined.

(** C8 as stated fails: the stub reports the prefix it is configured
    with, and a second [initialize] with other settings replaces the
    prefix the first one cached. *)
Lemma prefix_recomputed_by_second_initialize :
  let m1 := Manager.perform plugin (Manager.Op_initialize (prefixSettings "a:")) manager in
  let m2 := Manager.perform plugin (Manager.Op_initialize (prefixSettings "b:")) m1 in
  Manager.entityReferencePrefix_ m1 = Some "a:" ∧
  Manager.entityReferencePrefix_ m2 = Some "b:" ∧
  Manager.entityReferencePrefix_ m2 ≠ Manager.entityReferencePrefix_ m1.
Proof.
  intros m1 m2.
  assert (H1 : Manager.entityReferencePrefix_ m1 = Some "a:") by reflexivity.
  assert (H2 : Manager.entityReferencePrefix_ m2 = Some "b:") by reflexivity.
  split; [exact H1|]. split; [exact H2|]. rewrite H1, H2. discriminate.
Defined.

(** Classification, resolution and context creation after [initialize]
    leave the cached prefix alone; a second [initialize] that returns
    takes the prefix from the info dictionary of that call. *)
Lemma prefix_written_only_by_initialize_witness :
  let ops := [Manager.Op_isEntityReferenceString "stub://a";
              Manager.Op_resolve_multi_except threeRefs [] kRead context;
              Manager.Op_createContext] in
  forallb (λ op, negb (Manager.is_initialize op)) ops = true ∧
  Manager.entityReferencePrefix_ (Manager.performAll plugin ops (initialized "a:")) =
    Some "a:" ∧
  (Manager.initialize plugin (prefixSettings "b:") (initialized "a:")).1 = Ret tt ∧
  ∃ i, Manager.entityReferencePrefix_
         (Manager.perform plugin (Manager.Op_initialize (prefixSettings "b:"))
                          (initialized "a:")) =
         (entityReferencePrefixFromInfo
            (logger (Manager.hostSession_ (initialized "a:"))) i).1.
Proof.
  intros ops.
  assert (Hops : forallb (λ op, negb (Manager.is_initialize op)) ops = true)
    by reflexivity.
  assert (Hret : (Manager.initialize plugin (prefixSettings "b:") (initialized "a:")).1
                 = Ret tt) by reflexivity.
  destruct (prefix_written_only_by_initialize plugin (initialized "a:"))
    as (Hkeep & _ & Hset).
  split; [exact Hops|]. split; [exact (Hkeep ops Hops)|]. split; [exact Hret|].
  destruct (Hset (prefixSettings "b:") Hret)
    as (ps1 & p2 & i & ps3 & _ & _ & _ & Hprefix).
  exists i. exact Hprefix.
Defined.

(** The stub configured with the empty prefix: every string is accepted,
    the empty one too. *)
Lemma empty_prefix_accepts_everything_witness :
  prefixSettings "" !! kInfoKey_EntityReferencesMatchPrefix = Some (VStr "") ∧
  (entityReferencePrefixFromInfo [] (prefixSettings "")).1 = Some "" ∧
  Manager.entityReferencePrefix_ (initialized "") = Some "" ∧
  Manager.isEntityReferenceString plugin "" (initialized "") =
    (Ret true, initialized "") ∧
  Manager.isEntityReferenceString plugin "file:///a" (initialized "") =
    (Ret true, initialized "").
Proof.
  assert (Hkey : prefixSettings "" !! kInfoKey_EntityReferencesMatchPrefix =
                 Some (VStr "")) by reflexivity.
  assert (Hp : Manager.entityReferencePrefix_ (initialized "") = Some "")
    by reflexivity.
  destruct (empty_prefix_accepts_everything plugin) as [Hinfo Haccept].
  split; [exact Hkey|]. split; [exact (Hinfo [] (prefixSettings "") Hkey)|].
  split; [exact Hp|].
  split; [exact (Haccept (initialized "") "" Hp)|].
  exact (Haccept (initialized "") "file:///a" Hp).
Defined.

(** A facade with ["stub://"] cached is initialised again, with settings
    under which the stub denies required capabilities although they
    name another prefix: the call throws and ["stub://"] stays. *)
Lemma initialize_failure_keeps_prefix_witness :
  let m := initialized "stub://" in
  let p1 := mkPtr (mkState denyingSettings)
                  (trace (Manager.managerInterface_ m) ++ [Invoked M_initialize]) in
  let verification := verifyRequiredCapabilities plugin p1 in
  initialize plugin denyingSettings (Manager.hostSession_ m)
             (object (Manager.managerInterface_ m)) =
    (Ret tt, mkState denyingSettings) ∧
  verification.1 ≠ Ret tt ∧
  Manager.initialize plugin denyingSettings m =
    (verification.1, Manager.mk verification.2 (Manager.hostSession_ m) (Some "stub://")) ∧
  Manager.entityReferencePrefix_ (Manager.initialize plugin denyingSettings m).2 =
    Some "stub://".
Proof.
  intros m p1 verification.
  assert (Hinit : initialize plugin denyingSettings (Manager.hostSession_ m)
                    (object (Manager.managerInterface_ m)) =
                  (Ret tt, mkState denyingSettings)) by reflexivity.
  assert (Hverify : verifyRequiredCapabilities plugin p1 =
                    (verification.1, verification.2))
    by apply surjective_pairing.
  assert (Hfails : verification.1 ≠ Ret tt) by discriminate.
  destruct (initialize_failure_keeps_prefix plugin denyingSettings m
              (Ret tt) (mkState denyingSettings) verification.1 verification.2
              Hinit Hverify) as (_ & Hsecond & Hkept & _).
  split; [exact Hinit|]. split; [exact Hfails|].
  split; [exact (Hsecond eq_refl Hfails)|].
  apply Hkept. rewrite (Hsecond eq_refl Hfails). exact Hfails.
Defined.

(** A reference that fails, resolved alone. *)
Lemma singular_throw_spec_witness :
  let run := answers (λ ref, Some [toString ref]) [missingRef] in
  resolve plugin [missingRef] [] kRead context (Manager.hostSession_ manager)
          (object (Manager.managerInterface_ manager)) = (run, mkState ∅) ∧
  callbacks run = successes [] ++ (0, inl kEntityResolutionError) :: [] ∧
  Manager.resolve_singular_except plugin missingRef [] kRead context manager =
    (Throw (BatchElementException 0 kEntityResolutionError
              "entity not found [index=0] [access=read] [entity=missing]"),
     afterBatch M_resolve (mkState ∅) [ErrorCallback 0 kEntityResolutionError]
                manager).
Proof.
  intros run.
  assert (Hrun : resolve plugin [missingRef] [] kRead context
                   (Manager.hostSession_ manager)
                   (object (Manager.managerInterface_ manager)) = (run, mkState ∅))
    by reflexivity.
  assert (Hcbs : callbacks run = successes [] ++ (0, inl kEntityResolutionError) :: [])
    by reflexivity.
  split; [exact Hrun|]. split; [exact Hcbs|].
  destruct (singular_throw_spec plugin missingRef context manager) as [Hresolve _].
  destruct (Hresolve [] kRead run (mkState ∅) Hrun) as [_ Herr].
  exact (Herr [] 0 kEntityResolutionError [] Hcbs).
Defined.

(** The same reference in the singular, variant shape. *)
Lemma singular_variant_spec_witness :
  let run := answers (λ ref, Some [toString ref]) [missingRef] in
  resolve plugin [missingRef] [] kRead context (Manager.hostSession_ manager)
          (object (Manager.managerInterface_ manager)) = (run, mkState ∅) ∧
  Manager.resolve_singular_variant plugin missingRef [] kRead context manager =
    (Ret (VError kEntityResolutionError),
     afterBatch M_resolve (mkState ∅) [ErrorCallback 0 kEntityResolutionError]
                manager).
Proof.
  intros run.
  assert (Hrun : resolve plugin [missingRef] [] kRead context
                   (Manager.hostSession_ manager)
                   (object (Manager.managerInterface_ manager)) = (run, mkState ∅))
    by reflexivity.
  split; [exact Hrun|].
  destruct (singular_variant_spec plugin missingRef context manager) as [Hresolve _].
  exact (Hresolve [] kRead run (mkState ∅) Hrun).
Defined.

(** Three references, the middle one failing: the callback for the third
    is never invoked. *)
Lemma plural_throw_first_error_witness :
  let run := answers (λ ref, Some [toString ref]) threeRefs in
  let vals := [(0, Some ["stub://a"])] in
  let post := [(2, inr (Some ["stub://c"]))] in
  resolve plugin threeRefs [] kRead context (Manager.hostSession_ manager)
          (object (Manager.managerInterface_ manager)) = (run, mkState ∅) ∧
  callbacks run = successes vals ++ (1, inl kEntityResolutionError) :: post ∧
  Forall (λ iv, iv.1 < length threeRefs) vals ∧
  threeRefs !! 1 = Some missingRef ∧
  Manager.resolve_multi_except plugin threeRefs [] kRead context manager =
    (Throw (BatchElementException 1 kEntityResolutionError
              "entity not found [index=1] [access=read] [entity=missing]"),
     afterBatch M_resolve (mkState ∅)
       [SuccessCallback 0; ErrorCallback 1 kEntityResolutionError] manager).
Proof.
  intros run vals post.
  assert (Hrun : resolve plugin threeRefs [] kRead context
                   (Manager.hostSession_ manager)
                   (object (Manager.managerInterface_ manager)) = (run, mkState ∅))
    by reflexivity.
  assert (Hcbs : callbacks run =
                 successes vals ++ (1, inl kEntityResolutionError) :: post)
    by reflexivity.
  assert (Hrange : Forall (λ iv, iv.1 < length threeRefs) vals)
    by (repeat constructor; simpl; lia).
  assert (Href : threeRefs !! 1 = Some missingRef) by reflexivity.
  repeat (split; [assumption|]).
  destruct (plural_throw_first_error plugin threeRefs context manager)
    as [Hresolve _].
  exact (Hresolve [] kRead run (mkState ∅) vals 1 kEntityResolutionError
           missingRef post Hrun Hcbs Hrange Href).
Defined.

(** The quiet stub skips the middle reference: in the exception shape its
    position keeps the null pointer. *)
Lemma plural_throw_all_successes_witness :
  let refs := QuietStub.quietRefs in
  let run := QuietStub.answers (λ ref, Some [toString ref]) refs in
  let vals := [(0, Some ["stub://a"]); (2, Some ["stub://c"])] in
  resolve QuietStub.plugin refs [] kRead context (Manager.hostSession_ manager)
          (object (Manager.managerInterface_ manager)) = (run, mkState ∅) ∧
  callbacks run = successes vals ∧
  Forall (λ iv, iv.1 < length refs) vals ∧
  NoDup vals.*1 ∧
  ∃ vs,
    Manager.resolve_multi_except QuietStub.plugin refs [] kRead context manager =
      (Ret vs, afterBatch M_resolve (mkState ∅)
                 [SuccessCallback 0; SuccessCallback 2] manager) ∧
    length vs = 3 ∧
    vs !! 0 = Some (Some ["stub://a"]) ∧
    vs !! 1 = Some None ∧
    vs !! 2 = Some (Some ["stub://c"]).
Proof.
  intros refs run vals.
  assert (Hrun : resolve QuietStub.plugin refs [] kRead context
                   (Manager.hostSession_ manager)
                   (object (Manager.managerInterface_ manager)) = (run, mkState ∅))
    by reflexivity.
  assert (Hcbs : callbacks run = successes vals) by reflexivity.
  assert (Hrange : Forall (λ iv, iv.1 < length refs) vals)
    by (repeat constructor; simpl; lia).
  assert (Hnodup : NoDup vals.*1) by compute_done.
  repeat (split; [assumption|]).
  destruct (plural_throw_all_successes QuietStub.plugin refs context manager)
    as [Hresolve _].
  destruct (Hresolve [] kRead run (mkState ∅) vals Hrun Hcbs Hrange)
    as (vs & Hcall & Hlen & Hskipped & Hreported).
  exists vs. split; [exact Hcall|]. split; [exact Hlen|].
  split; [|split].
  - apply (Hreported Hnodup 0 (Some ["stub://a"])). apply list_elem_of_here.
  - apply (Hskipped 1); [simpl; lia|].
    compute_done.
  - apply (Hreported Hnodup 2 (Some ["stub://c"])).
    apply list_elem_of_further, list_elem_of_here.
Defined.

(** The same in the variant shape: the skipped position holds the
    value-initialised error. *)
Lemma plural_variant_skipped_indices_witness :
  let refs := QuietStub.quietRefs in
  let run := QuietStub.answers (λ ref, Some [toString ref]) refs in
  resolve QuietStub.plugin refs [] kRead context (Manager.hostSession_ manager)
          (object (Manager.managerInterface_ manager)) = (run, mkState ∅) ∧
  Forall (λ cb, cb.1 < length refs) (callbacks run) ∧
  NoDup (callbacks run).*1 ∧
  ∃ vs m',
    Manager.resolve_multi_variant QuietStub.plugin refs [] kRead context manager =
      (Ret vs, m') ∧
    length vs = 3 ∧
    vs !! 0 = Some (VValue (Some ["stub://a"])) ∧
    vs !! 1 = Some (VError (mkError 0 "")) ∧
    vs !! 2 = Some (VValue (Some ["stub://c"])).
Proof.
  intros refs run.
  assert (Hrun : resolve QuietStub.plugin refs [] kRead context
                   (Manager.hostSession_ manager)
                   (object (Manager.managerInterface_ manager)) = (run, mkState ∅))
    by reflexivity.
  assert (Hrange : Forall (λ cb, cb.1 < length refs) (callbacks run))
    by (repeat constructor; simpl; lia).
  assert (Hnodup : NoDup (callbacks run).*1)
    by compute_done.
  repeat (split; [assumption|]).
  destruct (plural_variant_skipped_indices QuietStub.plugin refs context manager)
    as [Hresolve _].
  destruct (Hresolve [] kRead run (mkState ∅) Hrun Hrange Hnodup)
    as (vs & m' & Hcall & Hlen & Hreported & Hskipped).
  exists vs, m'. split; [exact Hcall|]. split; [exact Hlen|].
  split; [|split].
  - apply (Hreported 0 (inr (Some ["stub://a"]))). apply list_elem_of_here.
  - apply (Hskipped 1); [simpl; lia|].
    compute_done.
  - apply (Hreported 2 (inr (Some ["stub://c"]))).
    apply list_elem_of_further, list_elem_of_here.
Defined.


(** The stub advertises stateful contexts and hands out state 0. *)
Lemma createContext_spec_witness :
  hasCapability plugin SC (object (Manager.managerInterface_ manager)) =
    (Ret true, mkState ∅) ∧
  Manager.createContext plugin manager =
    (Ret {| locale := Some []; managerState := Some 0 |},
     Manager.afterCall M_createState (mkState ∅)
       (Manager.afterCall M_hasCapability (mkState ∅) manager)).
Proof.
  assert (Hcap : hasCapability plugin SC (object (Manager.managerInterface_ manager)) =
                 (Ret true, mkState ∅)) by reflexivity.
  split; [exact Hcap|].
  exact (createContext_spec plugin manager (Ret true) (mkState ∅) Hcap).
Defined.

(** A parent with state 7: the stub derives state 8 for the child. *)
Lemma createChildContext_spec_witness :
  managerState QuietStub.statefulContext = Some 7 ∧
  Manager.createChildContext plugin QuietStub.statefulContext manager =
    (Ret {| locale := Some []; managerState := Some 8 |},
     Manager.afterCall M_createChildState (mkState ∅) manager) ∧
  managerState context = None ∧
  Manager.createChildContext plugin context manager =
    (Ret {| locale := None; managerState := None |}, manager).
Proof.
  assert (Hstate : managerState QuietStub.statefulContext = Some 7) by reflexivity.
  assert (Hnone : managerState context = None) by reflexivity.
  split; [exact Hstate|]. split.
  - destruct (createChildContext_spec plugin QuietStub.statefulContext manager)
      as [_ Hstateful].
    exact (Hstateful 7 Hstate).
  - split; [exact Hnone|].
    destruct (createChildContext_spec plugin context manager) as [Hstateless _].
    exact (Hstateless Hnone).
Defined.

(** The quiet stub does not advertise stateful contexts. *)
Lemma stateless_context_lifecycle_witness :
  let fresh := {| locale := Some []; managerState := None |} in
  hasCapability QuietStub.plugin SC (object (Manager.managerInterface_ manager)) =
    (Ret false, mkState ∅) ∧
  contextLifecycle QuietStub.plugin manager =
    (Ret (fresh, fresh, ""), Manager.afterCall M_hasCapability (mkState ∅) manager).
Proof.
  intros fresh.
  assert (Hcap : hasCapability QuietStub.plugin SC
                   (object (Manager.managerInterface_ manager)) =
                 (Ret false, mkState ∅)) by reflexivity.
  split; [exact Hcap|].
  exact (stateless_context_lifecycle QuietStub.plugin manager (mkState ∅) Hcap).
Defined.

(** The quiet stub serialises state 7 to the empty token, and the state is
    gone after the round trip; the stub serialises it to ["7"] and
    rebuilds a state from that. *)
Lemma token_round_trip_witness :
  managerState QuietStub.statefulContext = Some 7 ∧
  persistenceTokenForState QuietStub.plugin (Some 7) (Manager.hostSession_ manager)
    (object (Manager.managerInterface_ manager)) = (Ret "", mkState ∅) ∧
  tokenRoundTrip QuietStub.plugin QuietStub.statefulContext manager =
    (Ret {| locale := None; managerState := None |},
     Manager.afterCall M_persistenceTokenForState (mkState ∅) manager) ∧
  persistenceTokenForState plugin (Some 7) (Manager.hostSession_ manager)
    (object (Manager.managerInterface_ manager)) = (Ret "7", mkState ∅) ∧
  "7" ≠ "" ∧
  tokenRoundTrip plugin QuietStub.statefulContext manager =
    (Ret {| locale := None; managerState := Some 1 |},
     Manager.afterCall M_stateFromPersistenceToken (mkState ∅)
       (Manager.afterCall M_persistenceTokenForState (mkState ∅) manager)).
Proof.
  assert (Hstate : managerState QuietStub.statefulContext = Some 7) by reflexivity.
  assert (Hquiet : persistenceTokenForState QuietStub.plugin (Some 7)
                     (Manager.hostSession_ manager)
                     (object (Manager.managerInterface_ manager)) =
                   (Ret "", mkState ∅)) by reflexivity.
  assert (Hstub : persistenceTokenForState plugin (Some 7)
                    (Manager.hostSession_ manager)
                    (object (Manager.managerInterface_ manager)) =
                  (Ret "7", mkState ∅)) by reflexivity.
  assert (Hne : "7" ≠ "") by discriminate.
  split; [exact Hstate|]. split; [exact Hquiet|]. split.
  - destruct (token_round_trip QuietStub.plugin QuietStub.statefulContext manager)
      as [_ Hstateful].
    destruct (Hstateful 7 "" (mkState ∅) Hstate Hquiet) as [Hempty _].
    exact (Hempty eq_refl).
  - split; [exact Hstub|]. split; [exact Hne|].
    destruct (token_round_trip plugin QuietStub.statefulContext manager)
      as [_ Hstateful].
    destruct (Hstateful 7 "7" (mkState ∅) Hstate Hstub) as [_ Hrebuilt].
    exact (Hrebuilt Hne).
Defined.

(** The stub initialised with the prefix ["stub://"]. *)
Lemma initialize_then_classify_witness :
  let settings := prefixSettings "stub://" in
  let p2 := mkPtr (mkState settings)
              [Invoked M_initialize; Invoked M_hasCapability;
               Invoked M_hasCapability; Invoked M_hasCapability] in
  initialize plugin settings (Manager.hostSession_ manager)
             (object (Manager.managerInterface_ manager)) =
    (Ret tt, mkState settings) ∧
  verifyRequiredCapabilities plugin
    (mkPtr (mkState settings)
           (trace (Manager.managerInterface_ manager) ++ [Invoked M_initialize])) =
    (Ret tt, p2) ∧
  info plugin (object p2) = (Ret settings, mkState settings) ∧
  settings !! kInfoKey_EntityReferencesMatchPrefix = Some (VStr "stub://") ∧
  ∃ m',
    Manager.initialize plugin settings manager = (Ret tt, m') ∧
    Manager.entityReferencePrefix_ m' = Some "stub://" ∧
    ∃ b, Manager.isEntityReferenceString plugin "stub://a" m' = (Ret b, m') ∧
         (b = true ↔ ∃ rest, "stub://a" = "stub://" +:+ rest).
Proof.
  intros settings p2.
  assert (Hinit : initialize plugin settings (Manager.hostSession_ manager)
                    (object (Manager.managerInterface_ manager)) =
                  (Ret tt, mkState settings)) by reflexivity.
  assert (Hverify : verifyRequiredCapabilities plugin
                      (mkPtr (mkState settings)
                         (trace (Manager.managerInterface_ manager) ++
                          [Invoked M_initialize])) = (Ret tt, p2)) by reflexivity.
  assert (Hinfo : info plugin (object p2) = (Ret settings, mkState settings))
    by reflexivity.
  assert (Hkey : settings !! kInfoKey_EntityReferencesMatchPrefix =
                 Some (VStr "stub://")) by reflexivity.
  repeat (split; [assumption|]).
  destruct (initialize_then_classify plugin settings manager (mkState settings) p2
              settings (mkState settings) Hinit Hverify Hinfo)
    as (m' & Hcall & _ & Hstring & _).
  destruct (Hstring "stub://" Hkey) as (Hcached & _ & Hclassify).
  exists m'. split; [exact Hcall|]. split; [exact Hcached|].
  exact (Hclassify "stub://a").
Defined.

(** A fresh facade after two other operations still asks the plugin. *)
Lemma classification_before_initialize_witness :
  let ops := [Manager.Op_createContext (H := externals); Manager.Op_flushCaches] in
  let m := Manager.performAll plugin ops
             (Manager.make (mkPtr (mkState ∅) []) (mkHostSession [])) in
  forallb (λ op, negb (Manager.is_initialize op)) ops = true ∧
  Manager.isEntityReferenceString plugin "stub://a" m =
    (Ret true, Manager.afterCall M_isEntityReferenceString (mkState ∅) m).
Proof.
  intros ops m.
  assert (Hops : forallb (λ op, negb (Manager.is_initialize op)) ops = true)
    by reflexivity.
  split; [exact Hops|].
  destruct (classification_before_initialize plugin (mkPtr (mkState ∅) [])
              (mkHostSession []) ops "stub://a" Hops) as [_ Hcall].
  exact Hcall.
Defined.

(** With ["stub://"] cached, one string is accepted and one refused, the
    plugin being asked neither time. *)
Lemma createEntityReference_cached_witness :
  let m := initialized "stub://" in
  Manager.entityReferencePrefix_ m = Some "stub://" ∧
  (∃ rest, "stub://a" = "stub://" +:+ rest) ∧
  Manager.createEntityReference plugin "stub://a" m =
    (Ret (mkEntityReference "stub://a"), m) ∧
  ¬ (∃ rest, "file:///a" = "stub://" +:+ rest) ∧
  Manager.createEntityReference plugin "file:///a" m =
    (Throw (InputValidationException "Invalid entity reference: file:///a"), m).
Proof.
  intros m.
  assert (Hp : Manager.entityReferencePrefix_ m = Some "stub://") by reflexivity.
  assert (Hyes : ∃ rest, "stub://a" = "stub://" +:+ rest) by (by exists "a").
  assert (Hno : ¬ (∃ rest, "file:///a" = "stub://" +:+ rest))
    by (intros [rest Hrest]; discriminate Hrest).
  split; [exact Hp|]. split; [exact Hyes|]. split.
  - destruct (createEntityReference_cached plugin "stub://a" "stub://" m Hp)
      as [Haccept _].
    exact (proj1 (Haccept Hyes)).
  - split; [exact Hno|].
    destruct (createEntityReference_cached plugin "file:///a" "stub://" m Hp)
      as [_ Hrefuse].
    exact (proj1 (Hrefuse Hno)).
Defined.

(** Pages of ten for three references, the middle one failing. *)
Lemma relationship_pagers_wrapped_witness :
  let hs := Manager.hostSession_ manager in
  let run := answers (λ _, 10) threeRefs in
  10 ≠ 0 ∧
  getWithRelationship plugin threeRefs None [] 10 kRead context hs
    (object (Manager.managerInterface_ manager)) = (run, mkState ∅) ∧
  Manager.getWithRelationship plugin threeRefs None 10 kRead context
    recordSuccess recordError [] [] manager =
    (Ret [(0, inr (mkEntityReferencePager 10 hs));
          (1, inl kEntityResolutionError);
          (2, inr (mkEntityReferencePager 10 hs))],
     afterBatch M_getWithRelationship (mkState ∅)
       [SuccessCallback 0; ErrorCallback 1 kEntityResolutionError;
        SuccessCallback 2] manager).
Proof.
  intros hs run.
  assert (Hsize : 10 ≠ 0) by discriminate.
  assert (Hrun : getWithRelationship plugin threeRefs None [] 10 kRead context hs
                   (object (Manager.managerInterface_ manager)) = (run, mkState ∅))
    by reflexivity.
  split; [exact Hsize|]. split; [exact Hrun|].
  destruct (relationship_pagers_wrapped plugin 10 None [] kRead context []
              manager Hsize) as [Hone _].
  exact (Hone threeRefs run (mkState ∅) Hrun).
Defined.
End Examples.
